(** * The widgets of [minesweeper/gui.py], embedded and verified

    The module [gui.py] holds four retained-mode widgets drawn with pygame.
    This development embeds the three that carry state or validation
    ([Label], [SelectionGroup], [Input]) together with the frame helper
    [create_frame_image] and the click handler of [Button], and proves what
    their handlers do.

    Conventions of the embedding.
    - A Python object is a record with one field per attribute; a method is a
      computation in the monad [Py], which threads the object and may raise.
      A raised exception leaves every assignment made before it in place,
      exactly as in Python.
    - pygame is not part of the repository.  Its rectangles, surfaces and
      fonts are modelled by the small amount of behaviour the widgets rely
      on: integer rectangles, surfaces as the list of drawing requests they
      received, fonts as a metric function plus the set of strings they can
      rasterise.
    - The pointer position, which the handlers read from
      [pygame.mouse.get_pos()], is an explicit argument [mouse_pos].
    - Host callbacks are functions; they do not touch the widget that calls
      them.  The enter callback of [Input], which validates what the user
      typed, may raise; the click and change callbacks of [Button] and
      [SelectionGroup] are state transformers of the host, and what is
      proved of their handlers is about the calls that complete.
    - Sizes are the non-negative numbers pygame accepts: a font reports no
      negative metric, and [pygame.Surface] is called with the size it is
      given ([Input]'s [width] is the one size a caller chooses freely). *)

From Stdlib Require Import ZArith List String Ascii Bool Lia QArith DecimalString.
Import ListNotations.

Open Scope string_scope.
Open Scope list_scope.
Open Scope Z_scope.

(** ** Python values, exceptions and the method monad *)

(** The values handed to [Input] as [value]: the docstring promises that
    "everything will be converted to string"; strings and integers are
    the ones the game passes. *)
Inductive PyValue : Type :=
| PyStr (s : string)
| PyInt (n : Z).

(** [str(v)]. *)
Definition py_str (v : PyValue) : string :=
  match v with
  | PyStr s => s
  | PyInt n => NilZero.string_of_int (Z.to_int n)
  end.

(** [v == s] for a string [s]: an [int] never equals a [str]. *)
Definition py_eq_str (v : PyValue) (s : string) : bool :=
  match v with
  | PyStr t => String.eqb t s
  | PyInt _ => false
  end.

(** [s[:-1]]. *)
Fixpoint drop_last (s : string) : string :=
  match s with
  | EmptyString => EmptyString
  | String c EmptyString => EmptyString
  | String c rest => String c (drop_last rest)
  end.

(** [name in container] for a list of strings. *)
Definition py_in (name : string) (container : list string) : bool :=
  existsb (String.eqb name) container.

Inductive Exception : Type :=
| ValueError (msg : string)
| IndexError
| AttributeError
| PygameError.

Inductive Outcome (A : Type) : Type :=
| Returned (a : A)
| Raised (e : Exception).
Arguments Returned {A} a.
Arguments Raised {A} e.

(** A method body over an object of type [St]. *)
Definition Py (St A : Type) : Type := St -> Outcome A * St.

Definition ret {St A : Type} (a : A) : Py St A :=
  fun self => (Returned a, self).

Definition raise {St A : Type} (e : Exception) : Py St A :=
  fun self => (Raised e, self).

Definition bind {St A B : Type} (m : Py St A) (k : A -> Py St B) : Py St B :=
  fun self =>
    match m self with
    | (Returned a, self') => k a self'
    | (Raised e, self') => (Raised e, self')
    end.

(** Read an attribute. *)
Definition attr {St A : Type} (field : St -> A) : Py St A :=
  fun self => (Returned (field self), self).

(** Assign an attribute. *)
Definition assign {St : Type} (update : St -> St) : Py St unit :=
  fun self => (Returned tt, update self).

(** Use the result of a call that may raise without touching [self]. *)
Definition call {St A : Type} (o : Outcome A) : Py St A :=
  fun self => (o, self).

(** Dereference an attribute that may still be [None]. *)
Definition deref {St A : Type} (field : St -> option A) : Py St A :=
  fun self =>
    match field self with
    | Some a => (Returned a, self)
    | None => (Raised AttributeError, self)
    end.

(** [l[i]]. *)
Definition index {A : Type} (l : list A) (i : nat) : Outcome A :=
  match nth_error l i with
  | Some a => Returned a
  | None => Raised IndexError
  end.

Declare Scope py_scope.
Delimit Scope py_scope with py.
Notation "x <- m ;; k" := (bind m (fun x => k))
  (at level 61, m at next level, right associativity) : py_scope.
Notation "m ;; k" := (bind m (fun _ => k))
  (at level 61, right associativity) : py_scope.
Open Scope py_scope.

(** ** pygame: colours, rectangles, surfaces, fonts *)

Inductive Color : Type := RGBA (r g b a : Z).

(** [(int) d] for the floats of the layout code.  They are all multiples of
    one half, which binary floating point represents exactly, so rationals
    compute the same numbers. *)
Definition trunc (q : Q) : Z := Z.quot (Qnum q) (Zpos (Qden q)).

Module Rect.

Record t : Type := make { x : Z; y : Z; w : Z; h : Z }.

Definition left (r : t) : Z := x r.
Definition top (r : t) : Z := y r.
Definition right (r : t) : Z := x r + w r.
Definition bottom (r : t) : Z := y r + h r.
Definition centerx (r : t) : Z := x r + Z.quot (w r) 2.
Definition centery (r : t) : Z := y r + Z.quot (h r) 2.
Definition center (r : t) : Z * Z := (centerx r, centery r).
Definition topleft (r : t) : Z * Z := (x r, y r).
Definition size (r : t) : Z * Z := (w r, h r).

(** [r.size = (w, h)]. *)
Definition set_size (sz : Z * Z) (r : t) : t :=
  make (x r) (y r) (fst sz) (snd sz).

(** [r.collidepoint(px, py)]: left and top edges inside, right and bottom
    edges outside. *)
Definition collidepoint (r : t) (px py : Z) : bool :=
  (x r <=? px) && (px <? x r + w r) && (y r <=? py) && (py <? y r + h r).

End Rect.

(** A surface is its pixel size and the drawing requests it received, oldest
    first. *)
Inductive Surface : Type :=
| mkSurface (width height : Z) (content : list Draw)
with Draw : Type :=
| DrawFill (color : Color)
| DrawLine (color : Color) (start_pos end_pos : Z * Z) (line_width : Z)
| DrawText (text : string) (color : Color)
| DrawBlit (source : Surface) (dest : Z * Z).

Module Surface.

(** [pygame.Surface((width, height), pygame.SRCALPHA)].  pygame rejects a
    negative size with [pygame.error]; that failure is not modelled.  The
    sizes the widgets compute come from font metrics and images; the one
    size a caller chooses, the [width] of an [Input], carries the hypothesis
    [width_accepted] where the outcome of the constructor is stated. *)
Definition new (width height : Z) : Surface := mkSurface width height [].

Definition get_width (s : Surface) : Z :=
  match s with mkSurface width _ _ => width end.
Definition get_height (s : Surface) : Z :=
  match s with mkSurface _ height _ => height end.
Definition get_size (s : Surface) : Z * Z := (get_width s, get_height s).
Definition content (s : Surface) : list Draw :=
  match s with mkSurface _ _ c => c end.

Definition draw (d : Draw) (s : Surface) : Surface :=
  match s with mkSurface width height c => mkSurface width height (c ++ [d]) end.

(** [s.blit(source, dest)]; a rectangle given as [dest] stands for its
    top left corner. *)
Definition blit (source : Surface) (dest : Z * Z) (s : Surface) : Surface :=
  draw (DrawBlit source dest) s.

Definition fill (color : Color) (s : Surface) : Surface :=
  draw (DrawFill color) s.

Definition line (color : Color) (start_pos end_pos : Z * Z) (line_width : Z)
           (s : Surface) : Surface :=
  draw (DrawLine color start_pos end_pos line_width) s.

(** [s.get_rect()] and the keyword forms the widgets use. *)
Definition get_rect (s : Surface) : Rect.t :=
  Rect.make 0 0 (get_width s) (get_height s).
Definition get_rect_topleft (s : Surface) (position : Z * Z) : Rect.t :=
  Rect.make (fst position) (snd position) (get_width s) (get_height s).
Definition get_rect_center (s : Surface) (c : Z * Z) : Rect.t :=
  Rect.make (fst c - Z.quot (get_width s) 2) (snd c - Z.quot (get_height s) 2)
            (get_width s) (get_height s).
Definition get_rect_centerx (s : Surface) (cx : Z) : Rect.t :=
  Rect.make (cx - Z.quot (get_width s) 2) 0 (get_width s) (get_height s).
Definition get_rect_y (s : Surface) (y : Z) : Rect.t :=
  Rect.make 0 y (get_width s) (get_height s).
Definition get_rect_x_centery (s : Surface) (x cy : Z) : Rect.t :=
  Rect.make x (cy - Z.quot (get_height s) 2) (get_width s) (get_height s).

End Surface.

Module Font.

(** A font: its metrics, and which strings [render] accepts (pygame raises
    [pygame.error] on the others).  A rendered text has the size that
    [size] reports for it. *)
Record t : Type := make {
  size : string -> Z * Z;
  get_height : Z;
  renders : string -> bool
}.

(** [font.render(text, False, color)]. *)
Definition render (font : t) (text : string) (color : Color) : Outcome Surface :=
  if renders font text
  then Returned (mkSurface (fst (size font text)) (snd (size font text))
                           [DrawText text color])
  else Raised PygameError.

End Font.

Definition LEFT_CLICK : Z := 1.

(** pygame's key codes for backspace and return. *)
Definition K_BACKSPACE : Z := 8.
Definition K_RETURN : Z := 13.

(** ** [create_frame_image] *)

Definition create_frame_image (width height : Z) (color : Color)
           (line_width : Z) : Surface :=
  let ret := Surface.new width height in
  let ret := Surface.line color (0, 0) (width, 0) line_width ret in
  let ret := Surface.line color (0, 0) (0, height) line_width ret in
  let ret := Surface.line color (width - 1, 0) (width - 1, height) line_width ret in
  let ret := Surface.line color (0, height - 1) (width, height - 1) line_width ret in
  ret.

(** ** [class Label] *)

Module Label.

Record t : Type := make {
  font : Font.t;
  font_color : Color;
  surface : Surface;
  rect : Rect.t
}.

Definition set_surface (sf : Surface) (self : t) : t :=
  make (font self) (font_color self) sf (rect self).

Definition __init__ (font : Font.t) (font_color : Color) (text : string)
           (position : Z * Z) : Outcome t :=
  match Font.render font text font_color with
  | Returned sf =>
      Returned (make font font_color sf (Surface.get_rect_topleft sf position))
  | Raised e => Raised e
  end.

Definition set_text (text : string) : Py t unit :=
  sf <- (fun self => call (Font.render (font self) text (font_color self)) self) ;;
  assign (set_surface sf).

Definition render : Py t Surface := attr surface.

End Label.

(** ** [class Button] *)

(** The handlers of [Button].  They read two attributes, [rect] and
    [on_click_callback]; the pointer is compared with [rect] in screen
    coordinates.  The constructor sizes the frame by the binary floating
    point products [1.2 * width] and [1.2 * height], which rationals do not
    reproduce, so it is not embedded and the statements about the handlers
    hold for every value of the attributes. *)
Module Button.

Section WithHost.

(** The state of the host program, which the click callback may update. *)
Variable Env : Type.

Record t : Type := make {
  text : Surface;
  boarder : Surface;
  rect : Rect.t;
  on_click_callback : option (Env -> Env)
}.

(** The widget together with the host state its callback works on. *)
Definition World : Type := (t * Env)%type.

Definition render : Py World Surface := attr (fun w => boarder (fst w)).

Definition on_mouse_down (button : Z) (mouse_pos : Z * Z) : Py World unit :=
  self <- attr fst ;;
  match button =? LEFT_CLICK, on_click_callback self with
  | true, Some cb =>
      if Rect.collidepoint (rect self) (fst mouse_pos) (snd mouse_pos) then
        assign (fun w => (fst w, cb (snd w)))
      else ret tt
  | _, _ => ret tt
  end.

End WithHost.

Arguments text {Env} self : rename.
Arguments boarder {Env} self : rename.
Arguments rect {Env} self : rename.
Arguments on_click_callback {Env} self : rename.
Arguments on_mouse_down {Env} button mouse_pos _.

End Button.

(** ** [class SelectionGroup] *)

(** Python's [max] on two numbers keeps the first unless the second is
    strictly larger; on an empty list it raises [ValueError]. *)
Definition py_max2 (a b : Q) : Q := if Qle_bool b a then a else b.

Definition py_max (l : list Q) : Outcome Q :=
  match l with
  | [] => Raised (ValueError "max() arg is an empty sequence")
  | a :: rest => Returned (fold_left py_max2 rest a)
  end.

(** The message of the only exception [gui.py] raises itself. *)
Definition unequal_images_message : string :=
  "Images of selected and unselected buttons must have equal size".

(** [font.render] over a list of texts; the first failure propagates. *)
Fixpoint render_all (font : Font.t) (font_color : Color) (texts : list string)
  : Outcome (list Surface) :=
  match texts with
  | [] => Returned []
  | text :: rest =>
      match Font.render font text font_color with
      | Raised e => Raised e
      | Returned image =>
          match render_all font font_color rest with
          | Raised e => Raised e
          | Returned images => Returned (image :: images)
          end
      end
  end.

Module SelectionGroup.

Section WithHost.

(** The state of the host program, which the change callback may update.
    A callback receives the option's label and, second, the value that
    [_selected] holds while the callback runs. *)
Variable Env : Type.

Record t : Type := make {
  unselected_image : Surface;
  selected_image : Surface;
  options : list string;
  n_options : nat;
  title_image : Surface;
  surface : Surface;
  rect : Rect.t;
  button_rects : list Rect.t;
  item_rects : list Rect.t;
  _selected : nat;
  callback : option (string -> nat -> Env -> Env)
}.

Definition set__selected (i : nat) (self : t) : t :=
  make (unselected_image self) (selected_image self) (options self)
       (n_options self) (title_image self) (surface self) (rect self)
       (button_rects self) (item_rects self) i (callback self).

Definition set_surface (sf : Surface) (self : t) : t :=
  make (unselected_image self) (selected_image self) (options self)
       (n_options self) (title_image self) sf (rect self)
       (button_rects self) (item_rects self) (_selected self) (callback self).

(** The body of the layout loop of [__init__]: one button rectangle, one
    option rectangle and one item rectangle per option, [y] advancing by
    one and a half item heights. *)
Fixpoint layout_rows (unselected_image : Surface) (item_height : Z) (y : Q)
         (rows : list (Surface * Q))
  : list Rect.t * list Rect.t * list Rect.t :=
  match rows with
  | [] => ([], [], [])
  | (option_image, item_width) :: rest =>
      let button_rect := Surface.get_rect_y unselected_image (trunc y) in
      let option_rect :=
        Surface.get_rect_x_centery option_image
          (trunc (inject_Z (Rect.right button_rect)
                  + 0.5 * inject_Z (Rect.w button_rect))%Q)
          (Rect.centery button_rect) in
      let item_rect := Rect.make 0 (trunc y) (trunc item_width) item_height in
      match layout_rows unselected_image item_height
                        (y + 1.5 * inject_Z item_height)%Q rest with
      | (button_rects, option_rects, item_rects) =>
          (button_rect :: button_rects, option_rect :: option_rects,
           item_rect :: item_rects)
      end
  end.

Definition blit_all (images : list (Rect.t * Surface)) (sf : Surface) : Surface :=
  fold_left (fun acc p => Surface.blit (snd p) (Rect.topleft (fst p)) acc) images sf.

Definition blit_each (image : Surface) (rects : list Rect.t) (sf : Surface) : Surface :=
  fold_left (fun acc r => Surface.blit image (Rect.topleft r) acc) rects sf.

Definition __init__ (font : Font.t) (font_color : Color)
           (unselected_image selected_image : Surface)
           (title : string) (options : list string)
           (on_change_callback : option (string -> nat -> Env -> Env))
           (position : Z * Z) : Outcome t :=
  if negb ((Surface.get_width unselected_image =? Surface.get_width selected_image)
           && (Surface.get_height unselected_image =? Surface.get_height selected_image))
  then Raised (ValueError unequal_images_message)
  else
    match Font.render font title font_color with
    | Raised e => Raised e
    | Returned title_image =>
    match render_all font font_color options with
    | Raised e => Raised e
    | Returned option_images =>
    let item_height :=
      Z.max (Surface.get_height unselected_image) (Font.get_height font) in
    let button_width := Surface.get_width unselected_image in
    let item_widths :=
      map (fun option_image =>
             (1.5 * inject_Z button_width
              + inject_Z (Surface.get_width option_image))%Q) option_images in
    match py_max item_widths with
    | Raised e => Raised e
    | Returned widest =>
    let width := py_max2 widest (inject_Z (Surface.get_width title_image)) in
    let height :=
      (inject_Z (Surface.get_height title_image)
       + 0.5 * inject_Z item_height
       + 1.5 * inject_Z item_height * inject_Z (Z.of_nat (List.length options)))%Q in
    let sf := Surface.new (trunc width) (trunc height) in
    let rect := Surface.get_rect_topleft sf position in
    let surface_rect := Surface.get_rect sf in
    let title_rect :=
      Surface.get_rect_centerx title_image (Rect.centerx surface_rect) in
    let y := (inject_Z (Rect.bottom title_rect) + 0.5 * inject_Z item_height)%Q in
    match layout_rows unselected_image item_height y
                      (combine option_images item_widths) with
    | (button_rects, option_rects, item_rects) =>
    let sf := Surface.fill (RGBA 0 0 0 0) sf in
    let sf := Surface.blit title_image (Rect.topleft title_rect) sf in
    let sf := blit_all (combine option_rects option_images) sf in
    match index button_rects 0 with
    | Raised e => Raised e
    | Returned first_rect =>
    let sf := Surface.blit selected_image (Rect.topleft first_rect) sf in
    let sf := blit_each unselected_image (tl button_rects) sf in
    Returned (make unselected_image selected_image options (List.length options)
                   title_image sf rect button_rects item_rects 0%nat
                   on_change_callback)
    end end end end end.

(** The property [selected]. *)
Definition selected (self : t) : Outcome string :=
  index (options self) (_selected self).

(** The widget together with the host state its callback works on. *)
Definition World : Type := (t * Env)%type.

Definition on_self (update : t -> t) (w : World) : World :=
  (update (fst w), snd w).

(** [self.callback(option)]. *)
Definition run_callback (cb : string -> nat -> Env -> Env) (option : string)
           (w : World) : World :=
  (fst w, cb option (_selected (fst w)) (snd w)).

(** The [for] loop of [on_mouse_down], over
    [enumerate(zip(self.button_rects, self.item_rects))] from index [i] on;
    it stops at the first item rectangle holding the point. *)
Fixpoint scan_rows (i : nat) (rows : list (Rect.t * Rect.t)) (x y : Z)
  : Py World unit :=
  match rows with
  | [] => ret tt
  | (button_rect, item_rect) :: rest =>
      if Rect.collidepoint item_rect x y then
        self <- attr fst ;;
        match callback self with
        | Some cb =>
            if negb (Nat.eqb i (_selected self)) then
              option <- call (index (options self) i) ;;
              assign (run_callback cb option)
            else ret tt
        | None => ret tt
        end ;;
        assign (on_self (set__selected i))
      else scan_rows (S i) rest x y
  end.

Definition on_mouse_down (button : Z) (mouse_pos : Z * Z) : Py World unit :=
  if negb (button =? LEFT_CLICK) then ret tt
  else
    self <- attr fst ;;
    let x := fst mouse_pos - Rect.left (rect self) in
    let y := snd mouse_pos - Rect.top (rect self) in
    let selected_old := _selected self in
    scan_rows 0 (combine (button_rects self) (item_rects self)) x y ;;
    self <- attr fst ;;
    if negb (Nat.eqb (_selected self) selected_old) then
      old_rect <- call (index (button_rects self) selected_old) ;;
      assign (on_self (fun self =>
        set_surface (Surface.blit (unselected_image self) (Rect.topleft old_rect)
                                  (surface self)) self)) ;;
      self <- attr fst ;;
      new_rect <- call (index (button_rects self) (_selected self)) ;;
      assign (on_self (fun self =>
        set_surface (Surface.blit (selected_image self) (Rect.topleft new_rect)
                                  (surface self)) self))
    else ret tt.

Definition render : Py World Surface := attr (fun w => surface (fst w)).

End WithHost.

Arguments unselected_image {Env} self : rename.
Arguments selected_image {Env} self : rename.
Arguments options {Env} self : rename.
Arguments n_options {Env} self : rename.
Arguments title_image {Env} self : rename.
Arguments surface {Env} self : rename.
Arguments rect {Env} self : rename.
Arguments button_rects {Env} self : rename.
Arguments item_rects {Env} self : rename.
Arguments _selected {Env} self : rename.
Arguments callback {Env} self : rename.
Arguments set__selected {Env} i self.
Arguments set_surface {Env} sf self.
Arguments on_mouse_down {Env} button mouse_pos _.
Arguments scan_rows {Env} i rows x y _.
Arguments run_callback {Env} cb option w.
Arguments on_self {Env} update w.

End SelectionGroup.

(** A fixed-pitch test font: eight pixels per character, sixteen high. *)
Definition mono_font : Font.t :=
  Font.make (fun text => (8 * Z.of_nat (String.length text), 16)) 16 (fun _ => true).

Definition white : Color := RGBA 255 255 255 255.

Definition radio_off : Surface := mkSurface 12 12 [DrawFill (RGBA 0 0 0 255)].
Definition radio_on : Surface := mkSurface 12 12 [DrawFill white].

(** A host that logs every callback invocation: the label passed and the
    selection seen at the time of the call. *)
Definition logging_callback (option : string) (seen : nat)
           (log : list (string * nat)) : list (string * nat) :=
  log ++ [(option, seen)].

Definition difficulty_group : Outcome (SelectionGroup.t (list (string * nat))) :=
  SelectionGroup.__init__ _ mono_font white radio_off radio_on "Difficulty"
    ["Easy"; "Medium"; "Hard"] (Some logging_callback) (100, 50).

(** ** [class Input] *)

Module Input.

(** The attributes of an [Input].  [n_renders] is not an attribute of the
    Python object: it counts the calls of [_prepare_render], so that
    "no re-render happened" can be stated.  The enter callback is host code:
    called with the pending value it returns an object, of which the handler
    uses the truth value, or it raises. *)
Record t : Type := make {
  font : Font.t;
  font_color : Color;
  width : option Z;
  active_input : bool;
  in_input : bool;
  title : string;
  value : string;
  current_value : string;
  delimiter : string;
  frame_color : Color;
  max_value_length : option Z;
  allowed_symbols : option (list string);
  on_enter_callback : option (string -> Outcome bool);
  surface : option Surface;
  text : option Surface;
  boarder : option Surface;
  text_rect : option Rect.t;
  value_rect : option Rect.t;
  rect : option Rect.t;
  n_renders : nat
}.

(** All the attributes that are ever reassigned after [__init__] set them. *)
Definition update (self : t) (in_input' : bool) (value' current_value' : string)
           (surface' : option Surface) (value_rect' rect' : option Rect.t)
           (n_renders' : nat) : t :=
  make (font self) (font_color self) (width self) (active_input self) in_input'
       (title self) value' current_value' (delimiter self) (frame_color self)
       (max_value_length self) (allowed_symbols self) (on_enter_callback self)
       surface' (text self) (boarder self) (text_rect self) value_rect' rect'
       n_renders'.

Definition with_in_input (b : bool) (self : t) : t :=
  update self b (value self) (current_value self) (surface self)
         (value_rect self) (rect self) (n_renders self).
Definition with_value (v : string) (self : t) : t :=
  update self (in_input self) v (current_value self) (surface self)
         (value_rect self) (rect self) (n_renders self).
Definition with_current_value (v : string) (self : t) : t :=
  update self (in_input self) (value self) v (surface self)
         (value_rect self) (rect self) (n_renders self).
Definition with_surface (sf : option Surface) (self : t) : t :=
  update self (in_input self) (value self) (current_value self) sf
         (value_rect self) (rect self) (n_renders self).
Definition with_value_rect (r : option Rect.t) (self : t) : t :=
  update self (in_input self) (value self) (current_value self) (surface self)
         r (rect self) (n_renders self).
Definition with_rect (r : option Rect.t) (self : t) : t :=
  update self (in_input self) (value self) (current_value self) (surface self)
         (value_rect self) r (n_renders self).
Definition count_render (self : t) : t :=
  update self (in_input self) (value self) (current_value self) (surface self)
         (value_rect self) (rect self) (S (n_renders self)).

Definition _prepare_render : Py t unit :=
  assign count_render ;;
  self <- attr id ;;
  let value :=
    if in_input self then (current_value self ++ "_")%string
    else current_value self in
  text <- call (Font.render (font self)
                  (title self ++ delimiter self ++ value)%string
                  (font_color self)) ;;
  let width :=
    match width self with
    | None => Surface.get_width text
    | Some w => w
    end in
  let height := Surface.get_height text in
  let surface := Surface.new width height in
  let text_rect :=
    Surface.get_rect_center text (Rect.center (Surface.get_rect surface)) in
  let title_width :=
    fst (Font.size (font self) (title self ++ delimiter self)%string) in
  let value_width := fst (Font.size (font self) value) in
  let value_height := snd (Font.size (font self) value) in
  let margin := fst (Font.size (font self) "|") in
  let value_rect :=
    Rect.make (Rect.left text_rect + title_width - margin)
              (Rect.top text_rect)
              (value_width + 2 * margin)
              value_height in
  let surface :=
    if active_input self then
      let frame := create_frame_image (Rect.w value_rect) (Rect.h value_rect)
                                      (frame_color self) 1 in
      Surface.blit frame (Rect.topleft value_rect) surface
    else surface in
  let surface := Surface.blit text (Rect.topleft text_rect) surface in
  assign (with_surface (Some surface)) ;;
  assign (with_value_rect (Some value_rect)) ;;
  assign (fun self =>
            match rect self with
            | Some r =>
                with_rect (Some (Rect.set_size (Surface.get_size surface) r)) self
            | None => self
            end).

Definition __init__ (font : Font.t) (font_color : Color) (title : string)
           (value : PyValue) (delimiter : string) (frame_color : option Color)
           (active_input : bool) (width : option Z)
           (max_value_length : option Z) (allowed_symbols : option (list string))
           (on_enter_callback : option (string -> Outcome bool))
           (position : Z * Z) : Outcome t :=
  let frame_color :=
    match frame_color with
    | None => font_color
    | Some c => c
    end in
  let self :=
    make font font_color width active_input false title (py_str value)
         (py_str value) delimiter frame_color max_value_length allowed_symbols
         on_enter_callback None None None None None None 0%nat in
  match _prepare_render self with
  | (Raised e, _) => Raised e
  | (Returned _, self) =>
      match surface self with
      | Some sf =>
          Returned (with_rect (Some (Surface.get_rect_topleft sf position)) self)
      | None => Raised AttributeError
      end
  end.

Definition render : Py t (option Surface) := attr surface.

Definition set_value (value : PyValue) : Py t unit :=
  self <- attr id ;;
  if py_eq_str value (current_value self) then ret tt
  else
    assign (with_current_value (py_str value)) ;;
    assign (fun self => with_value (current_value self) self) ;;
    _prepare_render.

Definition on_mouse_click (button : Z) (mouse_pos : Z * Z) : Py t unit :=
  self <- attr id ;;
  if negb (active_input self) || negb (button =? LEFT_CLICK) then ret tt
  else
    rect <- deref rect ;;
    let x := fst mouse_pos - Rect.x rect in
    let y := snd mouse_pos - Rect.y rect in
    value_rect <- deref value_rect ;;
    (if Rect.collidepoint value_rect x y then
       assign (with_in_input true)
     else
       assign (with_in_input false) ;;
       assign (fun self => with_current_value (value self) self)) ;;
    _prepare_render.

(** [len(s) == max_value_length]; [None] equals no length. *)
Definition len_is (s : string) (max_value_length : option Z) : bool :=
  match max_value_length with
  | None => false
  | Some m => Z.of_nat (String.length s) =? m
  end.

(** [allowed_symbols is None or key_name in allowed_symbols]. *)
Definition symbol_allowed (allowed_symbols : option (list string))
           (key_name : string) : bool :=
  match allowed_symbols with
  | None => true
  | Some symbols => py_in key_name symbols
  end.

Section WithKeyNames.

(** [pygame.key.name]. *)
Variable key_name : Z -> string.

Definition on_key_press (key : Z) : Py t unit :=
  self <- attr id ;;
  if negb (in_input self) then ret tt
  else if key =? K_BACKSPACE then
    if negb (String.eqb (current_value self) "") then
      assign (with_current_value (drop_last (current_value self))) ;;
      _prepare_render
    else ret tt
  else if key =? K_RETURN then
    assign (with_in_input false) ;;
    match on_enter_callback self with
    | Some cb =>
        accepted <- call (cb (current_value self)) ;;
        if accepted : bool then
          assign (fun self => with_value (current_value self) self)
        else
          assign (fun self => with_current_value (value self) self)
    | None => assign (fun self => with_value (current_value self) self)
    end ;;
    _prepare_render
  else
    if len_is (current_value self) (max_value_length self) then ret tt
    else
      let name := key_name key in
      if symbol_allowed (allowed_symbols self) name then
        assign (fun self => with_current_value (current_value self ++ name)%string self) ;;
        _prepare_render
      else ret tt.

(** The calls a host can make on a constructed [Input]. *)
Inductive Op : Type :=
| SetValue (value : PyValue)
| MouseClick (button : Z) (mouse_pos : Z * Z)
| KeyPress (key : Z).

Definition perform (op : Op) : Py t unit :=
  match op with
  | SetValue value => set_value value
  | MouseClick button mouse_pos => on_mouse_click button mouse_pos
  | KeyPress key => on_key_press key
  end.

(** The widget after a sequence of calls.  A call that raises leaves the
    object as it was at the raise, and the host may go on using it. *)
Definition run (ops : list Op) (self : t) : t :=
  fold_left (fun self op => snd (perform op self)) ops self.

End WithKeyNames.

End Input.

(** [pygame.key.name] on the keys the examples press: digits and lower-case
    letters name themselves; the space bar, backspace, tab, return and escape
    have names of several characters. *)
Definition pygame_key_name (key : Z) : string :=
  if ((48 <=? key) && (key <=? 57)) || ((97 <=? key) && (key <=? 122))
  then String (ascii_of_nat (Z.to_nat key)) EmptyString
  else if key =? 32 then "space"
  else if key =? 8 then "backspace"
  else if key =? 9 then "tab"
  else if key =? 13 then "return"
  else if key =? 27 then "escape"
  else "unknown key".

Definition K_SPACE : Z := 32.
Definition K_5 : Z := 53.
Definition K_9 : Z := 57.

Definition digits : list string :=
  ["0"; "1"; "2"; "3"; "4"; "5"; "6"; "7"; "8"; "9"].

Definition mines_input : Outcome Input.t :=
  Input.__init__ mono_font white "MINES" (PyStr "10") "  " None true None
                 (Some 3) (Some digits) None (20, 300).

(** ** Predicates used in the statements *)

Definition pos_eqb (p q : Z * Z) : bool :=
  (fst p =? fst q) && (snd p =? snd q).

(** Is this surface the outline [create_frame_image] draws? *)
Definition is_frame_image (s : Surface) : bool :=
  match s with
  | mkSurface width height
      [DrawLine _ a1 b1 _; DrawLine _ a2 b2 _; DrawLine _ a3 b3 _; DrawLine _ a4 b4 _] =>
      pos_eqb a1 (0, 0) && pos_eqb b1 (width, 0)
      && pos_eqb a2 (0, 0) && pos_eqb b2 (0, height)
      && pos_eqb a3 (width - 1, 0) && pos_eqb b3 (width - 1, height)
      && pos_eqb a4 (0, height - 1) && pos_eqb b4 (width, height - 1)
  | _ => false
  end.

(** Is this drawing request a frame laid exactly over rectangle [r]? *)
Definition frame_over (r : Rect.t) (d : Draw) : bool :=
  match d with
  | DrawBlit source dest =>
      is_frame_image source
      && pos_eqb (Surface.get_size source) (Rect.size r)
      && pos_eqb dest (Rect.topleft r)
  | _ => false
  end.

(** Does the surface hold a frame around [r]? *)
Definition has_frame (sf : Surface) (r : Rect.t) : bool :=
  existsb (frame_over r) (Surface.content sf).

(** What the last completed [_prepare_render] left in an [Input]: the
    frame, when there is one, comes first and the text is blitted last. *)
Definition rendered (self : Input.t) : Prop :=
  exists sf vr text text_pos,
    Input.surface self = Some sf /\
    Input.value_rect self = Some vr /\
    Surface.content sf =
      (if Input.active_input self
       then [DrawBlit (create_frame_image (Rect.w vr) (Rect.h vr)
                                          (Input.frame_color self) 1)
                      (Rect.topleft vr)]
       else [])
      ++ [DrawBlit text text_pos] /\
    is_frame_image text = false.

(** The invariant of a constructed [Input], whatever its callback does. *)
Record input_invariant (self : Input.t) : Prop := {
  editing_needs_active :
    Input.in_input self = true -> Input.active_input self = true;
  has_render : rendered self;
  has_rect : Input.rect self <> None
}.

(** A [SelectionGroup] whose three lists have one entry per option and whose
    selection is one of them; [__init__] builds such groups. *)
Record group_well_formed {Env : Type} (sg : SelectionGroup.t Env) : Prop := {
  buttons_per_item :
    List.length (SelectionGroup.button_rects sg)
    = List.length (SelectionGroup.item_rects sg);
  options_per_item :
    List.length (SelectionGroup.options sg)
    = List.length (SelectionGroup.item_rects sg);
  selected_in_range :
    (SelectionGroup._selected sg < List.length (SelectionGroup.item_rects sg))%nat
}.

(** Index of the first rectangle holding the point, if any. *)
Fixpoint first_hit (rects : list Rect.t) (x y : Z) : option nat :=
  match rects with
  | [] => None
  | r :: rest =>
      if Rect.collidepoint r x y then Some 0%nat
      else option_map S (first_hit rest x y)
  end.

(** The pending value of an [Input] that is not in edit mode is its committed
    value. *)
Definition idle_is_synced (self : Input.t) : Prop :=
  Input.in_input self = false -> Input.current_value self = Input.value self.

(** An enter callback that returns whenever it is called; no callback at all
    is one. *)
Definition never_raises (callback : option (string -> Outcome bool)) : Prop :=
  match callback with
  | Some cb => forall pending, exists accepted, cb pending = Returned accepted
  | None => True
  end.

(** The exception with which the enter callback answers the pending value,
    if it does. *)
Definition enter_raises (self : Input.t) : option Exception :=
  match Input.on_enter_callback self with
  | Some cb =>
      match cb (Input.current_value self) with
      | Raised e => Some e
      | Returned _ => None
      end
  | None => None
  end.

(** The assignments [on_key_press] makes for the return key, up to the
    render or up to the exception of the callback: edit mode is left first;
    the value is committed or reverted only when the callback has
    returned. *)
Definition after_enter (self : Input.t) : Input.t :=
  let idle := Input.with_in_input false self in
  match Input.on_enter_callback self with
  | Some cb =>
      match cb (Input.current_value self) with
      | Returned true => Input.with_value (Input.current_value self) idle
      | Returned false => Input.with_current_value (Input.value self) idle
      | Raised _ => idle
      end
  | None => Input.with_value (Input.current_value self) idle
  end.

(** What the change callback, if one is registered, does to the host when
    it is called with [option] while the group is in state [sg]. *)
Definition notify {Env : Type} (sg : SelectionGroup.t Env) (option : string)
           (env : Env) : Env :=
  match SelectionGroup.callback sg with
  | Some cb => cb option (SelectionGroup._selected sg) env
  | None => env
  end.

(** The marker state a fresh group shows: the selected image on the first
    button rectangle, then the unselected image on every other one. *)
Definition first_marked {Env : Type} (sg : SelectionGroup.t Env) : Prop :=
  exists before first rest,
    SelectionGroup.button_rects sg = first :: rest /\
    Surface.content (SelectionGroup.surface sg)
    = before
      ++ DrawBlit (SelectionGroup.selected_image sg) (Rect.topleft first)
      :: map (fun r => DrawBlit (SelectionGroup.unselected_image sg)
                                (Rect.topleft r)) rest.

(** Example widgets and events. *)
Definition click_on_value : Input.Op := Input.MouseClick LEFT_CLICK (80, 305).

Definition long_input : Outcome Input.t :=
  Input.__init__ mono_font white "MINES" (PyStr "12345") "  " None true None
                 (Some 3) (Some digits) None (20, 300).

Definition free_input : Outcome Input.t :=
  Input.__init__ mono_font white "MINES" (PyStr "10") "  " None true None
                 (Some 3) None None (20, 300).

(** An enter callback that accepts values of at most two characters. *)
Definition accept_two (pending : string) : Outcome bool :=
  Returned (String.length pending <=? 2)%nat.

Definition limited_input : Outcome Input.t :=
  Input.__init__ mono_font white "MINES" (PyStr "10") "  " None true None
                 (Some 3) (Some digits) (Some accept_two) (20, 300).

(** An enter callback of a host that wants a number: it accepts a non-empty
    string of digits and raises [ValueError], as a conversion with [int]
    does, on text that is not a number. *)
Fixpoint all_digits (s : string) : bool :=
  match s with
  | EmptyString => true
  | String c rest =>
      (48 <=? nat_of_ascii c)%nat && (nat_of_ascii c <=? 57)%nat
      && all_digits rest
  end.

Definition int_error_message : string := "invalid literal for int() with base 10".

Definition int_callback (pending : string) : Outcome bool :=
  if negb (String.eqb pending "") && all_digits pending
  then Returned true
  else Raised (ValueError int_error_message).

Definition checked_input : Outcome Input.t :=
  Input.__init__ mono_font white "MINES" (PyStr "10") "  " None true None
                 None None (Some int_callback) (20, 300).

(** A font like [mono_font] that cannot rasterise more than ten characters. *)
Definition narrow_font : Font.t :=
  Font.make (Font.size mono_font) 16
            (fun text => (String.length text <=? 10)%nat).


(** ** Sequences of events *)

(** Does this call assign the committed value?  Only [set_value] and the
    return key have such an assignment in their bodies. *)
Definition commits (op : Input.Op) : bool :=
  match op with
  | Input.SetValue _ => true
  | Input.MouseClick _ _ => false
  | Input.KeyPress key => key =? K_RETURN
  end.

(** A pointer or keyboard event, as opposed to a call of [set_value]. *)
Definition is_event (op : Input.Op) : bool :=
  match op with
  | Input.SetValue _ => false
  | _ => true
  end.

(** A key that reaches the last branch of [on_key_press]. *)
Definition is_character_key (key : Z) : bool :=
  negb (key =? K_BACKSPACE) && negb (key =? K_RETURN).

(** The keys for which the length limit does its work: backspace, and keys
    whose name is at most one character long. *)
Definition is_short_key (key_name : Z -> string) (key : Z) : bool :=
  negb (key =? K_RETURN)
  && ((key =? K_BACKSPACE) || (String.length (key_name key) <=? 1)%nat).

(** The key names that pass the filter of [allowed_symbols], joined in the
    order of the key presses. *)
Fixpoint typed_text (allowed_symbols : option (list string))
         (names : list string) : string :=
  match names with
  | [] => ""
  | name :: rest =>
      ((if Input.symbol_allowed allowed_symbols name then name else "")
       ++ typed_text allowed_symbols rest)%string
  end.

(** The geometry a constructed [Input] keeps: the bounding rectangle sits at
    the construction position and has the size of the cached surface, whose
    width is the configured one when there is one. *)
Definition rect_follows_surface (position : Z * Z) (self : Input.t) : Prop :=
  exists sf r,
    Input.surface self = Some sf /\
    Input.rect self = Some r /\
    Rect.topleft r = position /\
    Rect.size r = Surface.get_size sf /\
    (forall w, Input.width self = Some w -> Surface.get_width sf = w).

(** The text on the cached surface of an [Input]: the string of the text
    image blitted last. *)
Definition displayed_text (self : Input.t) : option string :=
  match Input.surface self with
  | Some sf =>
      match last (Surface.content sf) (DrawFill (RGBA 0 0 0 0)) with
      | DrawBlit (mkSurface _ _ [DrawText text _]) _ => Some text
      | _ => None
      end
  | None => None
  end.

(** The text [_prepare_render] composes from the attributes: title,
    delimiter, pending value, and the cursor in edit mode. *)
Definition composed_text (self : Input.t) : string :=
  (Input.title self ++ Input.delimiter self
   ++ (if Input.in_input self then Input.current_value self ++ "_"
       else Input.current_value self))%string.

(** The display of an [Input] agrees with its state, for a font and a
    callback that do not fail. *)
Definition display_current (font : Font.t)
           (callback : option (string -> Outcome bool)) (self : Input.t)
  : Prop :=
  Input.font self = font /\
  Input.on_enter_callback self = callback /\
  displayed_text self = Some (composed_text self).


(** [set_text] called with each text in turn; a call that raises leaves the
    label as it was. *)
Definition set_texts (texts : list string) (self : Label.t) : Label.t :=
  fold_left (fun self text => snd (Label.set_text text self)) texts self.

(** The last of [texts] the font can rasterise, [default] when there is
    none. *)
Definition last_renderable (font : Font.t) (texts : list string)
           (default : string) : string :=
  fold_left (fun shown text => if Font.renders font text then text else shown)
            texts default.

(** Mouse-down events, each a button and a pointer position, delivered in
    turn to a [SelectionGroup] and its host. *)
Definition mouse_events {Env : Type} (events : list (Z * (Z * Z)))
           (w : SelectionGroup.World Env) : SelectionGroup.World Env :=
  fold_left
    (fun w event => snd (SelectionGroup.on_mouse_down (fst event) (snd event) w))
    events w.

(** The same for a [Button]. *)
Definition button_events {Env : Type} (events : list (Z * (Z * Z)))
           (w : Button.World Env) : Button.World Env :=
  fold_left
    (fun w event => snd (Button.on_mouse_down (fst event) (snd event) w))
    events w.

(** Is this event a left click with the pointer inside [r]? *)
Definition left_click_inside (r : Rect.t) (event : Z * (Z * Z)) : bool :=
  (fst event =? LEFT_CLICK)
  && Rect.collidepoint r (fst (snd event)) (snd (snd event)).

(** Rectangles laid out downwards, each at least [gap] below the one
    before. *)
Fixpoint stacked (gap : Z) (rects : list Rect.t) : Prop :=
  match rects with
  | [] => True
  | r :: rest =>
      Forall (fun below => Rect.y r + gap <= Rect.y below) rest
      /\ stacked gap rest
  end.

(** The image a surface shows at [pos]: the source of the last blit there. *)
Definition shown_at (pos : Z * Z) (content : list Draw) : option Surface :=
  fold_left
    (fun shown d =>
       match d with
       | DrawBlit source dest => if pos_eqb dest pos then Some source else shown
       | _ => shown
       end)
    content None.

(** Every marker position shows the image of its row's state. *)
Definition markers_match_selection {Env : Type} (sg : SelectionGroup.t Env)
  : Prop :=
  forall k button_rect,
    nth_error (SelectionGroup.button_rects sg) k = Some button_rect ->
    shown_at (Rect.topleft button_rect)
             (Surface.content (SelectionGroup.surface sg))
    = Some (if Nat.eqb k (SelectionGroup._selected sg)
            then SelectionGroup.selected_image sg
            else SelectionGroup.unselected_image sg).

(** An [Input] without a length limit and without a symbol filter. *)
Definition name_input : Outcome Input.t :=
  Input.__init__ mono_font white "NAME" (PyStr "ab") ": " None true None
                 None None None (0, 0).

Definition click_on_name : Input.Op := Input.MouseClick LEFT_CLICK (45, 5).

(** A read-only [Input], as the game uses for its counters. *)
Definition timer_input : Outcome Input.t :=
  Input.__init__ mono_font white "TIME" (PyInt 0) "  " None false (Some 120)
                 None None None (0, 0).

(** ** Tactics for method bodies *)

Arguments Input._prepare_render : simpl never.

Ltac py_unfold :=
  cbv beta iota delta [bind ret raise attr assign call deref id].

Ltac input_unfold :=
  unfold Input.with_in_input, Input.with_value, Input.with_current_value,
    Input.with_surface, Input.with_value_rect, Input.with_rect,
    Input.count_render, Input.update in *.

(** ** Facts about [Input._prepare_render] *)

Lemma frame_image_is_frame (width height : Z) (color : Color) (line_width : Z) :
  is_frame_image (create_frame_image width height color line_width) = true.
Proof.
  unfold create_frame_image, Surface.line, Surface.draw, Surface.new.
  cbn -[Z.sub]. unfold pos_eqb. cbn -[Z.sub].
  rewrite !Z.eqb_refl. reflexivity.
Qed.

Lemma prepare_render_cases (self : Input.t) :
  (exists e, Input._prepare_render self = (Raised e, Input.count_render self))
  \/
  (exists sf vr text text_pos,
      Input._prepare_render self
      = (Returned tt,
         Input.update self (Input.in_input self) (Input.value self)
           (Input.current_value self) (Some sf) (Some vr)
           (option_map (Rect.set_size (Surface.get_size sf)) (Input.rect self))
           (S (Input.n_renders self)))
      /\ Surface.content sf =
           (if Input.active_input self
            then [DrawBlit (create_frame_image (Rect.w vr) (Rect.h vr)
                                               (Input.frame_color self) 1)
                           (Rect.topleft vr)]
            else [])
           ++ [DrawBlit text text_pos]
      /\ is_frame_image text = false).
Proof.
  unfold Input._prepare_render. py_unfold. unfold Font.render. cbn.
  destruct (Font.renders _ _).
  - right. input_unfold. cbn.
    destruct (Input.active_input self) eqn:Hactive;
      destruct (Input.rect self) eqn:Hrect; cbn;
      do 4 eexists; (split; [reflexivity | split; [cbn; reflexivity | reflexivity]]).
  - left. eexists. reflexivity.
Qed.

(** Whatever the outcome, [_prepare_render] leaves the editing state and the
    configuration alone and counts one render. *)
Lemma prepare_render_keeps (self : Input.t) :
  let self' := snd (Input._prepare_render self) in
  Input.in_input self' = Input.in_input self /\
  Input.value self' = Input.value self /\
  Input.current_value self' = Input.current_value self /\
  Input.active_input self' = Input.active_input self /\
  Input.frame_color self' = Input.frame_color self /\
  Input.max_value_length self' = Input.max_value_length self /\
  Input.allowed_symbols self' = Input.allowed_symbols self /\
  Input.on_enter_callback self' = Input.on_enter_callback self /\
  Input.n_renders self' = S (Input.n_renders self).
Proof.
  destruct (prepare_render_cases self) as [[e H] | (sf & vr & text & pos & H & _)];
    rewrite H; cbn; repeat split; reflexivity.
Qed.

(** A failed [_prepare_render] changes nothing but the render count. *)
Lemma prepare_render_raised (self self' : Input.t) (e : Exception) :
  Input._prepare_render self = (Raised e, self') ->
  self' = Input.count_render self.
Proof.
  destruct (prepare_render_cases self) as [[e' H] | (sf & vr & text & pos & H & _)];
    rewrite H; intro Heq; inversion Heq; reflexivity.
Qed.

(** ** Facts about [Input.on_key_press] *)

Section KeyPress.

Variable key_name : Z -> string.

Lemma key_press_idle (key : Z) (self : Input.t) :
  Input.in_input self = false ->
  Input.on_key_press key_name key self = (Returned tt, self).
Proof.
  intro Hidle. unfold Input.on_key_press. py_unfold. rewrite Hidle. reflexivity.
Qed.

Lemma key_press_backspace (self : Input.t) :
  Input.in_input self = true ->
  Input.on_key_press key_name K_BACKSPACE self
  = if String.eqb (Input.current_value self) ""
    then (Returned tt, self)
    else Input._prepare_render
           (Input.with_current_value (drop_last (Input.current_value self)) self).
Proof.
  intro Hedit. unfold Input.on_key_press. py_unfold. rewrite Hedit. cbn.
  destruct (String.eqb _ _); reflexivity.
Qed.

Lemma key_press_return (self : Input.t) :
  Input.in_input self = true ->
  Input.on_key_press key_name K_RETURN self
  = match enter_raises self with
    | Some e => (Raised e, after_enter self)
    | None => Input._prepare_render (after_enter self)
    end.
Proof.
  intro Hedit. unfold Input.on_key_press, after_enter, enter_raises. py_unfold.
  rewrite Hedit. cbn.
  destruct (Input.on_enter_callback self) as [cb |]; cbn.
  - destruct (cb (Input.current_value self)) as [[|] | e]; reflexivity.
  - reflexivity.
Qed.

(** Whether the return key's handler stops at the callback or goes on to
    render, the editing state it leaves is that of [after_enter]. *)
Lemma key_press_return_state (self : Input.t) :
  Input.in_input self = true ->
  let self' := snd (Input.on_key_press key_name K_RETURN self) in
  Input.in_input self' = false /\
  Input.value self' = Input.value (after_enter self) /\
  Input.current_value self' = Input.current_value (after_enter self).
Proof.
  intro Hedit. cbv zeta. rewrite key_press_return by assumption.
  assert (Input.in_input (after_enter self) = false) as Hidle.
  { unfold after_enter.
    destruct (Input.on_enter_callback self) as [cb |];
      [destruct (cb (Input.current_value self)) as [[|] | e] |]; reflexivity. }
  destruct (enter_raises self) as [e |]; cbn [snd]; [auto |].
  destruct (prepare_render_keeps (after_enter self)) as (Hin & Hval & Hcur & _).
  rewrite Hin, Hval, Hcur. auto.
Qed.

Lemma key_press_other (key : Z) (self : Input.t) :
  Input.in_input self = true ->
  key <> K_BACKSPACE -> key <> K_RETURN ->
  Input.on_key_press key_name key self
  = if Input.len_is (Input.current_value self) (Input.max_value_length self)
    then (Returned tt, self)
    else if Input.symbol_allowed (Input.allowed_symbols self) (key_name key)
    then Input._prepare_render
           (Input.with_current_value
              (Input.current_value self ++ key_name key)%string self)
    else (Returned tt, self).
Proof.
  intros Hedit Hback Hret. unfold Input.on_key_press. py_unfold.
  rewrite Hedit. cbn -[K_BACKSPACE K_RETURN].
  apply Z.eqb_neq in Hback, Hret. rewrite Hback, Hret.
  destruct (Input.len_is _ _); [reflexivity |].
  destruct (Input.symbol_allowed _ _); reflexivity.
Qed.

End KeyPress.

(** ** Enter, over-long values and [set_value] *)

(** C2.  In edit mode the return key leaves edit mode.  Without a callback
    the pending value is committed; with a callback that accepts the pending
    value it is committed; with a callback that rejects it the pending value
    goes back to the committed one, which stays as it was.  (With a callback
    that raises, edit mode is left all the same and neither value is
    touched.) *)
Theorem enter_commits_or_reverts (key_name : Z -> string) (self : Input.t) :
  Input.in_input self = true ->
  let self' := snd (Input.on_key_press key_name K_RETURN self) in
  Input.in_input self' = false /\
  match Input.on_enter_callback self with
  | None =>
      Input.value self' = Input.current_value self /\
      Input.current_value self' = Input.current_value self
  | Some cb =>
      match cb (Input.current_value self) with
      | Returned true =>
          Input.value self' = Input.current_value self /\
          Input.current_value self' = Input.current_value self
      | Returned false =>
          Input.current_value self' = Input.value self /\
          Input.value self' = Input.value self
      | Raised _ =>
          Input.current_value self' = Input.current_value self /\
          Input.value self' = Input.value self
      end
  end.
Proof.
  intros Hedit self'. subst self'.
  destruct (key_press_return_state key_name self Hedit) as (Hin & Hval & Hcur).
  rewrite Hin, Hval, Hcur. unfold after_enter.
  destruct (Input.on_enter_callback self) as [cb |].
  - destruct (cb (Input.current_value self)) as [[|] | e]; cbn; auto.
  - cbn. auto.
Qed.

(** C10.  The length guard is an equality test: once the pending value is
    longer than [max_value_length], every allowed key still appends its
    name. *)
Theorem overlong_value_keeps_growing (key_name : Z -> string) (self : Input.t)
        (key m : Z) :
  Input.in_input self = true ->
  Input.max_value_length self = Some m ->
  m < Z.of_nat (String.length (Input.current_value self)) ->
  key <> K_BACKSPACE -> key <> K_RETURN ->
  Input.symbol_allowed (Input.allowed_symbols self) (key_name key) = true ->
  Input.current_value (snd (Input.on_key_press key_name key self))
  = (Input.current_value self ++ key_name key)%string.
Proof.
  intros Hedit Hmax Hlong Hback Hret Hallowed.
  rewrite key_press_other by assumption.
  unfold Input.len_is. rewrite Hmax.
  replace (Z.of_nat (String.length (Input.current_value self)) =? m) with false
    by (symmetry; apply Z.eqb_neq; lia).
  rewrite Hallowed.
  destruct (prepare_render_keeps
              (Input.with_current_value
                 (Input.current_value self ++ key_name key)%string self))
    as (_ & _ & Hcur & _).
  rewrite Hcur. reflexivity.
Qed.

Lemma enter_commits_or_reverts_witness :
  exists self0,
    mines_input = Returned self0 /\
    let self :=
      Input.run pygame_key_name [click_on_value; Input.KeyPress K_5] self0 in
    Input.in_input self = true /\
    let self' := snd (Input.on_key_press pygame_key_name K_RETURN self) in
    Input.in_input self' = false /\
    match Input.on_enter_callback self with
    | None =>
        Input.value self' = Input.current_value self /\
        Input.current_value self' = Input.current_value self
    | Some cb =>
        match cb (Input.current_value self) with
        | Returned true =>
            Input.value self' = Input.current_value self /\
            Input.current_value self' = Input.current_value self
        | Returned false =>
            Input.current_value self' = Input.value self /\
            Input.value self' = Input.value self
        | Raised _ =>
            Input.current_value self' = Input.current_value self /\
            Input.value self' = Input.value self
        end
    end.
Proof.
  eexists. split; [vm_compute; reflexivity |]. cbv zeta. split; [reflexivity |].
  apply (enter_commits_or_reverts pygame_key_name). reflexivity.
Defined.

Lemma overlong_value_keeps_growing_witness :
  exists self0,
    long_input = Returned self0 /\
    let self := Input.run pygame_key_name [click_on_value] self0 in
    Input.in_input self = true /\
    Input.max_value_length self = Some 3 /\
    3 < Z.of_nat (String.length (Input.current_value self)) /\
    Input.current_value (snd (Input.on_key_press pygame_key_name K_5 self))
    = (Input.current_value self ++ pygame_key_name K_5)%string.
Proof.
  eexists. split; [vm_compute; reflexivity |]. cbv zeta.
  split; [reflexivity |]. split; [reflexivity |]. split; [reflexivity |].
  apply (overlong_value_keeps_growing pygame_key_name _ K_5 3).
  - reflexivity.
  - reflexivity.
  - reflexivity.
  - discriminate.
  - discriminate.
  - reflexivity.
Defined.

(** C4, as the code has it.  [set_value] compares its argument with the
    pending value, by Python equality: when they are equal nothing happens,
    not even a render; otherwise committed and pending value both become
    [str(value)] and the widget renders once.  A widget that is not editing
    has pending value equal to committed value, so there the committed
    string is a no-op. *)
Theorem set_value_compares_pending (self : Input.t) (value : PyValue) :
  (py_eq_str value (Input.current_value self) = true ->
   Input.set_value value self = (Returned tt, self)) /\
  (py_eq_str value (Input.current_value self) = false ->
   let self' := snd (Input.set_value value self) in
   Input.value self' = py_str value /\
   Input.current_value self' = py_str value /\
   Input.in_input self' = Input.in_input self /\
   Input.n_renders self' = S (Input.n_renders self)) /\
  (Input.in_input self = false ->
   Input.current_value self = Input.value self ->
   Input.set_value (PyStr (Input.value self)) self = (Returned tt, self)).
Proof.
  split; [| split].
  - intro Heq. unfold Input.set_value. py_unfold. rewrite Heq. reflexivity.
  - intros Hneq self'. subst self'. unfold Input.set_value. py_unfold.
    rewrite Hneq.
    match goal with
    | |- context [Input._prepare_render ?s] =>
        destruct (prepare_render_keeps s)
          as (Hin & Hval & Hcur & _ & _ & _ & _ & _ & Hn)
    end.
    rewrite Hin, Hval, Hcur, Hn. cbn. auto.
  - intros _ Hsync. unfold Input.set_value. py_unfold. cbn.
    rewrite Hsync, String.eqb_refl. reflexivity.
Qed.

Lemma set_value_compares_pending_witness :
  exists self0,
    mines_input = Returned self0 /\
    py_eq_str (PyInt 42) (Input.current_value self0) = false /\
    let self' := snd (Input.set_value (PyInt 42) self0) in
    Input.value self' = py_str (PyInt 42) /\
    Input.current_value self' = py_str (PyInt 42) /\
    Input.in_input self' = Input.in_input self0 /\
    Input.n_renders self' = S (Input.n_renders self0).
Proof.
  eexists. split; [vm_compute; reflexivity |]. split; [reflexivity |].
  apply (proj1 (proj2 (set_value_compares_pending _ (PyInt 42)))).
  reflexivity.
Defined.

(** C4 fails as stated.  While editing, with committed value "10" and
    pending value "105": [set_value("10")] resets the pending value and
    renders, and [set_value("105")] leaves the committed value at "10".
    On an idle widget holding "10", [set_value(10)] renders again. *)
Lemma set_value_committed_value_counterexample :
  exists self0,
    mines_input = Returned self0 /\
    let self :=
      Input.run pygame_key_name [click_on_value; Input.KeyPress K_5] self0 in
    (Input.value self = "10" /\ Input.current_value self = "105") /\
    (Input.current_value (snd (Input.set_value (PyStr "10") self)) = "10" /\
     Input.n_renders (snd (Input.set_value (PyStr "10") self))
     = S (Input.n_renders self)) /\
    Input.value (snd (Input.set_value (PyStr "105") self)) = "10" /\
    (py_str (PyInt 10) = Input.value self0 /\
     Input.n_renders (snd (Input.set_value (PyInt 10) self0))
     = S (Input.n_renders self0)).
Proof.
  eexists. split; [vm_compute; reflexivity |]. cbv zeta.
  split; [split | split; [split | split; [| split]]]; vm_compute; reflexivity.
Qed.

(** What a raised exception leaves behind: the render products of before. *)
Lemma count_render_keeps_render (self : Input.t) :
  Input.surface (Input.count_render self) = Input.surface self /\
  Input.value_rect (Input.count_render self) = Input.value_rect self /\
  Input.rect (Input.count_render self) = Input.rect self.
Proof. repeat split. Qed.




(** ** The length cap of [Input] *)

Lemma length_append (s t : string) :
  String.length (s ++ t) = (String.length s + String.length t)%nat.
Proof. induction s as [| c s IH]; cbn; [reflexivity | now rewrite IH]. Qed.

(** At exactly [max_value_length] characters, a character key does nothing. *)
Lemma full_value_ignores_character_keys (key_name : Z -> string)
      (self : Input.t) (key m : Z) :
  Input.in_input self = true ->
  Input.max_value_length self = Some m ->
  Z.of_nat (String.length (Input.current_value self)) = m ->
  key <> K_BACKSPACE -> key <> K_RETURN ->
  Input.on_key_press key_name key self = (Returned tt, self).
Proof.
  intros Hedit Hmax Hfull Hback Hret.
  rewrite key_press_other by assumption.
  unfold Input.len_is. rewrite Hmax.
  apply Z.eqb_eq in Hfull. rewrite Hfull. reflexivity.
Qed.

(** Below the maximum, a key whose name is one character long keeps the
    pending value within the maximum. *)
Lemma one_character_key_respects_max (key_name : Z -> string)
      (self : Input.t) (key m : Z) :
  Input.in_input self = true ->
  Input.max_value_length self = Some m ->
  Z.of_nat (String.length (Input.current_value self)) < m ->
  String.length (key_name key) = 1%nat ->
  key <> K_BACKSPACE -> key <> K_RETURN ->
  Z.of_nat (String.length
              (Input.current_value (snd (Input.on_key_press key_name key self))))
  <= m.
Proof.
  intros Hedit Hmax Hshort Hone Hback Hret.
  rewrite key_press_other by assumption.
  destruct (Input.len_is _ _); [cbn; lia |].
  destruct (Input.symbol_allowed _ _); [| cbn; lia].
  match goal with
  | |- context [Input._prepare_render ?s] =>
      destruct (prepare_render_keeps s) as (_ & _ & Hcur & _)
  end.
  rewrite Hcur. cbn. rewrite length_append, Hone. lia.
Qed.

(** Backspace is not subject to the maximum. *)
Lemma backspace_ignores_max (key_name : Z -> string) (self : Input.t) :
  Input.in_input self = true ->
  Input.current_value (snd (Input.on_key_press key_name K_BACKSPACE self))
  = drop_last (Input.current_value self).
Proof.
  intro Hedit. rewrite key_press_backspace by assumption.
  destruct (String.eqb_spec (Input.current_value self) "") as [Hempty | _].
  - cbn. now rewrite Hempty.
  - match goal with
    | |- context [Input._prepare_render ?s] =>
        destruct (prepare_render_keeps s) as (_ & _ & Hcur & _)
    end.
    now rewrite Hcur.
Qed.

(** C8.  The code at the failing input: [max_value_length = 3], any symbol
    allowed, pending value "10".  The space bar appends its five-character
    name, the pending value is seven characters long, and since seven is not
    three the next key appends as well. *)
Theorem space_key_overshoots_max_length :
  exists self0,
    free_input = Returned self0 /\
    let self := Input.run pygame_key_name [click_on_value] self0 in
    (Input.in_input self = true /\
     Input.max_value_length self = Some 3 /\
     Input.current_value self = "10") /\
    let self' := snd (Input.on_key_press pygame_key_name K_SPACE self) in
    Input.current_value self' = "10space" /\
    Input.current_value (snd (Input.on_key_press pygame_key_name K_5 self'))
    = "10space5".
Proof.
  eexists. split; [vm_compute; reflexivity |]. cbv zeta.
  split; [split; [| split] | split]; vm_compute; reflexivity.
Qed.

(** ** [Label] *)

(** [set_text] never touches the bounding rectangle. *)
Lemma set_text_keeps_rect (text : string) (self : Label.t) :
  Label.rect (snd (Label.set_text text self)) = Label.rect self.
Proof.
  unfold Label.set_text. py_unfold.
  destruct (Font.render _ _ _); reflexivity.
Qed.

(** C7.  The code at the failing input: a label built with "ab" at (3, 4)
    and then given "abcd".  The position stays (3, 4) and the surface is the
    new render, 32 pixels wide, but the bounding rectangle keeps the 16
    pixels of the first render. *)
Theorem label_rect_keeps_old_size :
  exists self self',
    Label.__init__ mono_font white "ab" (3, 4) = Returned self /\
    Label.set_text "abcd" self = (Returned tt, self') /\
    Font.render mono_font "abcd" white = Returned (Label.surface self') /\
    Rect.topleft (Label.rect self') = (3, 4) /\
    Surface.get_size (Label.surface self') = (32, 16) /\
    Rect.size (Label.rect self') = (16, 16).
Proof.
  eexists. eexists. split; [vm_compute; reflexivity |].
  split; [vm_compute; reflexivity |].
  split; [| split; [| split]]; vm_compute; reflexivity.
Qed.

(** ** The invariant of [Input] *)

Lemma rendered_ext (self self' : Input.t) :
  Input.surface self' = Input.surface self ->
  Input.value_rect self' = Input.value_rect self ->
  Input.active_input self' = Input.active_input self ->
  Input.frame_color self' = Input.frame_color self ->
  rendered self -> rendered self'.
Proof.
  intros Hsf Hvr Hactive Hcolor (sf & vr & text & pos & H1 & H2 & H3 & H4).
  exists sf, vr, text, pos. rewrite Hsf, Hvr, Hactive, Hcolor. auto.
Qed.

Lemma prepare_render_returned_rendered (self self' : Input.t) (u : unit) :
  Input._prepare_render self = (Returned u, self') -> rendered self'.
Proof.
  destruct (prepare_render_cases self)
    as [[e H] | (sf & vr & text & pos & H & Hcontent & Htext)];
    rewrite H; intro Heq; inversion Heq; subst.
  exists sf, vr, text, pos. cbn. auto.
Qed.

Lemma render_preserves_invariant (self : Input.t) :
  input_invariant self -> input_invariant (snd (Input._prepare_render self)).
Proof.
  intros [Hactive Hrender Hrect].
  destruct (prepare_render_keeps self)
    as (Hin & Hval & Hcur & Hact & Hcolor & _).
  constructor.
  - rewrite Hin, Hact. exact Hactive.
  - destruct (Input._prepare_render self) as [[u | e] self'] eqn:Hrun.
    + exact (prepare_render_returned_rendered _ _ _ Hrun).
    + apply prepare_render_raised in Hrun. subst self'. cbn.
      apply (rendered_ext self); auto.
  - destruct (prepare_render_cases self)
      as [[e H] | (sf & vr & text & pos & H & _)]; rewrite H; cbn.
    + exact Hrect.
    + destruct (Input.rect self); [discriminate | contradiction].
Qed.

Ltac invariant_of_update Hrender :=
  constructor; cbn;
  [ | apply (rendered_ext _ _ eq_refl eq_refl eq_refl eq_refl Hrender) | ];
  auto; try discriminate; try congruence.

Lemma init_invariant (font : Font.t) (font_color : Color) (title : string)
      (value : PyValue) (delimiter : string) (frame_color : option Color)
      (active_input : bool) (width max_value_length : option Z)
      (allowed_symbols : option (list string))
      (on_enter_callback : option (string -> Outcome bool)) (position : Z * Z)
      (self : Input.t) :
  Input.__init__ font font_color title value delimiter frame_color active_input
                 width max_value_length allowed_symbols on_enter_callback
                 position = Returned self ->
  input_invariant self.
Proof.
  unfold Input.__init__.
  match goal with
  | |- context [Input._prepare_render ?s] =>
      pose proof (prepare_render_keeps s) as Hkeep;
      destruct (Input._prepare_render s) as [[u | e] self1] eqn:Hrun
  end; [| discriminate].
  cbn in Hkeep. destruct Hkeep as (Hin & Hval & Hcur & _).
  pose proof (prepare_render_returned_rendered _ _ _ Hrun) as Hrender.
  destruct (Input.surface self1) as [sf |] eqn:Hsf; [| discriminate].
  intro Heq. inversion Heq. subst self. clear Heq.
  constructor; cbn.
  - rewrite Hin. discriminate.
  - apply (rendered_ext self1); auto.
  - discriminate.
Qed.

Lemma perform_preserves_invariant (key_name : Z -> string) (op : Input.Op)
      (self : Input.t) :
  input_invariant self ->
  input_invariant (snd (Input.perform key_name op self)).
Proof.
  intros Hinv. pose proof Hinv as [Hactive Hrender Hrect].
  destruct op as [value | button mouse_pos | key]; cbn [Input.perform].
  - (* set_value *)
    unfold Input.set_value. py_unfold.
    destruct (py_eq_str _ _); [exact Hinv |].
    apply render_preserves_invariant. invariant_of_update Hrender.
  - (* on_mouse_click *)
    unfold Input.on_mouse_click. py_unfold.
    destruct (Input.active_input self) eqn:Hact; cbn [negb orb]; [| exact Hinv].
    destruct (negb (button =? LEFT_CLICK)); [exact Hinv |].
    destruct (Input.rect self) as [r |] eqn:Hr; [| exact Hinv].
    destruct (Input.value_rect self) as [vr |] eqn:Hvr; [| exact Hinv].
    destruct (Rect.collidepoint _ _ _);
      apply render_preserves_invariant; invariant_of_update Hrender.
  - (* on_key_press *)
    destruct (Input.in_input self) eqn:Hedit;
      [| rewrite key_press_idle by assumption; exact Hinv].
    destruct (Z.eq_dec key K_BACKSPACE) as [-> | Hback].
    + rewrite key_press_backspace by assumption.
      destruct (String.eqb _ _); [exact Hinv |].
      apply render_preserves_invariant. invariant_of_update Hrender.
    + destruct (Z.eq_dec key K_RETURN) as [-> | Hret].
      * rewrite key_press_return by assumption.
        assert (input_invariant (after_enter self)) as Hafter.
        { unfold after_enter.
          destruct (Input.on_enter_callback self) as [cb |];
            [destruct (cb (Input.current_value self)) as [[|] | e] |];
            invariant_of_update Hrender. }
        destruct (enter_raises self); [exact Hafter |].
        apply render_preserves_invariant. exact Hafter.
      * rewrite key_press_other by assumption.
        destruct (Input.len_is _ _); [exact Hinv |].
        destruct (Input.symbol_allowed _ _); [| exact Hinv].
        apply render_preserves_invariant. invariant_of_update Hrender.
Qed.

Lemma run_preserves_invariant (key_name : Z -> string) (ops : list Input.Op) :
  forall self,
    input_invariant self -> input_invariant (Input.run key_name ops self).
Proof.
  induction ops as [| op ops IH]; intros self Hinv; [exact Hinv |].
  cbn. apply IH. apply perform_preserves_invariant. exact Hinv.
Qed.

(** ** Pending and committed value of an idle [Input] *)

(** A render keeps the callback and the agreement of the two values. *)
Lemma render_keeps_sync (self state : Input.t) :
  Input.on_enter_callback state = Input.on_enter_callback self ->
  idle_is_synced state ->
  let self' := snd (Input._prepare_render state) in
  Input.on_enter_callback self' = Input.on_enter_callback self /\
  idle_is_synced self'.
Proof.
  intros Hcallback Hsync. cbv zeta. unfold idle_is_synced in *.
  destruct (prepare_render_keeps state)
    as (Hin & Hval & Hcur & _ & _ & _ & _ & Hcb & _).
  rewrite Hin, Hval, Hcur, Hcb. auto.
Qed.

(** With a callback that returns, the return key always reaches the
    render. *)
Lemma never_raises_enter (self : Input.t) :
  never_raises (Input.on_enter_callback self) -> enter_raises self = None.
Proof.
  unfold never_raises, enter_raises.
  destruct (Input.on_enter_callback self) as [cb |]; [| reflexivity].
  intro Hreturns. destruct (Hreturns (Input.current_value self)) as [b ->].
  reflexivity.
Qed.

Ltac sync_of_update :=
  apply render_keeps_sync;
  [reflexivity | unfold idle_is_synced; cbn; intros; congruence].

Lemma perform_preserves_sync (key_name : Z -> string) (op : Input.Op)
      (self : Input.t) :
  never_raises (Input.on_enter_callback self) ->
  idle_is_synced self ->
  let self' := snd (Input.perform key_name op self) in
  Input.on_enter_callback self' = Input.on_enter_callback self /\
  idle_is_synced self'.
Proof.
  intros Hreturns Hsync. cbv zeta.
  destruct op as [value | button mouse_pos | key]; cbn [Input.perform].
  - (* set_value *)
    unfold Input.set_value. py_unfold.
    destruct (py_eq_str _ _); [auto |]. sync_of_update.
  - (* on_mouse_click *)
    unfold Input.on_mouse_click. py_unfold.
    destruct (negb (Input.active_input self) || negb (button =? LEFT_CLICK));
      [auto |].
    destruct (Input.rect self) as [r |] eqn:Hr; [| auto].
    destruct (Input.value_rect self) as [vr |] eqn:Hvr; [| auto].
    destruct (Rect.collidepoint _ _ _); sync_of_update.
  - (* on_key_press *)
    destruct (Input.in_input self) eqn:Hedit;
      [| rewrite key_press_idle by assumption; auto].
    destruct (Z.eq_dec key K_BACKSPACE) as [-> | Hback].
    + rewrite key_press_backspace by assumption.
      destruct (String.eqb _ _); [auto |]. sync_of_update.
    + destruct (Z.eq_dec key K_RETURN) as [-> | Hret].
      * rewrite key_press_return, never_raises_enter by assumption.
        apply render_keeps_sync;
          unfold after_enter, idle_is_synced, never_raises in *;
          destruct (Input.on_enter_callback self) as [cb |] eqn:Hcb;
          try (destruct (Hreturns (Input.current_value self)) as [[|] ->]);
          cbn; intros; congruence.
      * rewrite key_press_other by assumption.
        destruct (Input.len_is _ _); [auto |].
        destruct (Input.symbol_allowed _ _); [| auto]. sync_of_update.
Qed.

Lemma run_preserves_sync (key_name : Z -> string) (ops : list Input.Op) :
  forall self,
    never_raises (Input.on_enter_callback self) ->
    idle_is_synced self ->
    idle_is_synced (Input.run key_name ops self).
Proof.
  induction ops as [| op ops IH]; intros self Hreturns Hsync; [exact Hsync |].
  destruct (perform_preserves_sync key_name op self Hreturns Hsync)
    as [Hcallback Hsync'].
  cbn. apply IH; [| exact Hsync']. cbv zeta in Hcallback.
  now rewrite Hcallback.
Qed.

Lemma init_synced (font : Font.t) (font_color : Color) (title : string)
      (value : PyValue) (delimiter : string) (frame_color : option Color)
      (active_input : bool) (width max_value_length : option Z)
      (allowed_symbols : option (list string))
      (on_enter_callback : option (string -> Outcome bool)) (position : Z * Z)
      (self : Input.t) :
  Input.__init__ font font_color title value delimiter frame_color active_input
                 width max_value_length allowed_symbols on_enter_callback
                 position = Returned self ->
  Input.on_enter_callback self = on_enter_callback /\ idle_is_synced self.
Proof.
  unfold Input.__init__.
  match goal with
  | |- context [Input._prepare_render ?s] =>
      pose proof (prepare_render_keeps s) as Hkeep;
      destruct (Input._prepare_render s) as [[u | e] self1]
  end; [| discriminate].
  cbn in Hkeep. destruct Hkeep as (_ & Hval & Hcur & _ & _ & _ & _ & Hcb & _).
  destruct (Input.surface self1) as [sf |]; [| discriminate].
  intro Heq. inversion Heq. subst self. clear Heq.
  unfold idle_is_synced. cbn. split; [exact Hcb | intros _; congruence].
Qed.

(** C5, as the code has it.  For an [Input] whose enter callback returns
    whenever it is called (or that has none), whatever calls follow the
    construction, whenever the widget is not in edit mode its pending value
    equals its committed value.  Failed renders do not disturb this. *)
Theorem idle_pending_equals_committed
        (key_name : Z -> string) (font : Font.t) (font_color : Color)
        (title : string) (value : PyValue) (delimiter : string)
        (frame_color : option Color) (active_input : bool)
        (width max_value_length : option Z)
        (allowed_symbols : option (list string))
        (on_enter_callback : option (string -> Outcome bool)) (position : Z * Z)
        (ops : list Input.Op) (self0 : Input.t) :
  never_raises on_enter_callback ->
  Input.__init__ font font_color title value delimiter frame_color active_input
                 width max_value_length allowed_symbols on_enter_callback
                 position = Returned self0 ->
  let self := Input.run key_name ops self0 in
  Input.in_input self = false ->
  Input.current_value self = Input.value self.
Proof.
  intros Hreturns Hinit self. subst self.
  destruct (init_synced _ _ _ _ _ _ _ _ _ _ _ _ _ Hinit) as [Hcallback Hsync].
  apply run_preserves_sync; [now rewrite Hcallback | exact Hsync].
Qed.

Lemma idle_pending_equals_committed_witness :
  exists self0,
    limited_input = Returned self0 /\
    let self :=
      Input.run pygame_key_name
        [click_on_value; Input.KeyPress K_5; Input.KeyPress K_RETURN;
         click_on_value; Input.KeyPress K_BACKSPACE;
         Input.MouseClick LEFT_CLICK (0, 0)] self0 in
    never_raises (Some accept_two) /\
    Input.in_input self = false /\
    Input.current_value self = Input.value self.
Proof.
  eexists. split; [vm_compute; reflexivity |]. cbv zeta.
  assert (never_raises (Some accept_two)) as Hreturns
      by (intro pending; eexists; reflexivity).
  split; [exact Hreturns |].
  split; [vm_compute; reflexivity |].
  refine (idle_pending_equals_committed pygame_key_name mono_font white "MINES"
            (PyStr "10") "  " None true None (Some 3) (Some digits)
            (Some accept_two) (20, 300) _ _ Hreturns _ _);
    vm_compute; reflexivity.
Defined.

(** C5 fails as stated.  The return key's handler leaves edit mode before it
    calls the callback.  With a callback that raises on what was typed, the
    handler stops there: the widget is out of edit mode, the pending value is
    still the rejected text and the committed value is the old one. *)
Lemma raising_callback_counterexample :
  exists self0,
    checked_input = Returned self0 /\
    let self := Input.run pygame_key_name [click_on_value; Input.KeyPress K_SPACE]
                          self0 in
    (Input.in_input self = true /\ Input.current_value self = "10space") /\
    fst (Input.on_key_press pygame_key_name K_RETURN self)
    = Raised (ValueError int_error_message) /\
    let self' := snd (Input.on_key_press pygame_key_name K_RETURN self) in
    Input.in_input self' = false /\
    Input.current_value self' = "10space" /\
    Input.value self' = "10".
Proof.
  eexists. split; [vm_compute; reflexivity |]. cbv zeta.
  split; [split | split; [| split; [| split]]]; vm_compute; reflexivity.
Qed.

(** ** The frame of [Input] *)

Lemma rendered_has_frame (self : Input.t) (sf : Surface) (vr : Rect.t) :
  rendered self ->
  Input.surface self = Some sf ->
  Input.value_rect self = Some vr ->
  has_frame sf vr = Input.active_input self.
Proof.
  intros (sf' & vr' & text & pos & Hsf & Hvr & Hcontent & Htext) Hsf' Hvr'.
  rewrite Hsf in Hsf'. rewrite Hvr in Hvr'.
  inversion Hsf'. inversion Hvr'. subst sf' vr'.
  unfold has_frame. rewrite Hcontent.
  destruct (Input.active_input self).
  - cbn [app existsb frame_over]. rewrite frame_image_is_frame.
    unfold pos_eqb. cbn. rewrite !Z.eqb_refl. reflexivity.
  - cbn [app existsb frame_over]. rewrite Htext. reflexivity.
Qed.

(** C1, as the code has it.  After any calls, the cached surface holds the
    frame around the value sub-rectangle exactly when the widget was built
    with [active_input]; the frame is then the first thing blitted and the
    text comes on top.  Edit mode needs [active_input], so an editing widget
    always shows the frame; an idle one shows it too when it is editable. *)
Theorem frame_follows_active_input
        (key_name : Z -> string) (font : Font.t) (font_color : Color)
        (title : string) (value : PyValue) (delimiter : string)
        (frame_color : option Color) (active_input : bool)
        (width max_value_length : option Z)
        (allowed_symbols : option (list string))
        (on_enter_callback : option (string -> Outcome bool)) (position : Z * Z)
        (ops : list Input.Op) (self0 : Input.t) :
  Input.__init__ font font_color title value delimiter frame_color active_input
                 width max_value_length allowed_symbols on_enter_callback
                 position = Returned self0 ->
  let self := Input.run key_name ops self0 in
  exists sf vr,
    Input.surface self = Some sf /\
    Input.value_rect self = Some vr /\
    has_frame sf vr = Input.active_input self /\
    (Input.in_input self = true -> has_frame sf vr = true) /\
    (Input.active_input self = true ->
     exists text text_pos,
       Surface.content sf =
       [DrawBlit (create_frame_image (Rect.w vr) (Rect.h vr)
                                     (Input.frame_color self) 1)
                 (Rect.topleft vr);
        DrawBlit text text_pos]).
Proof.
  intros Hinit self.
  assert (input_invariant self) as [Hactive Hrender Hrect].
  { apply run_preserves_invariant.
    exact (init_invariant _ _ _ _ _ _ _ _ _ _ _ _ _ Hinit). }
  pose proof Hrender as (sf & vr & text & pos & Hsf & Hvr & Hcontent & Htext).
  exists sf, vr.
  pose proof (rendered_has_frame self sf vr Hrender Hsf Hvr) as Hframe.
  repeat split; auto.
  - intro Hedit. rewrite Hframe. auto.
  - intro Hact. rewrite Hact in Hcontent. exists text, pos. exact Hcontent.
Qed.

Lemma frame_follows_active_input_witness :
  exists self0,
    mines_input = Returned self0 /\
    let self :=
      Input.run pygame_key_name [click_on_value; Input.KeyPress K_5] self0 in
    exists sf vr,
      Input.surface self = Some sf /\
      Input.value_rect self = Some vr /\
      has_frame sf vr = Input.active_input self /\
      (Input.in_input self = true -> has_frame sf vr = true) /\
      (Input.active_input self = true ->
       exists text text_pos,
         Surface.content sf =
         [DrawBlit (create_frame_image (Rect.w vr) (Rect.h vr)
                                       (Input.frame_color self) 1)
                   (Rect.topleft vr);
          DrawBlit text text_pos]).
Proof.
  eexists. split; [vm_compute; reflexivity |].
  refine (frame_follows_active_input pygame_key_name mono_font white "MINES"
            (PyStr "10") "  " None true None (Some 3) (Some digits) None
            (20, 300) _ _ _).
  vm_compute; reflexivity.
Defined.

(** C1 fails as stated.  An editable [Input] that nobody has clicked is not
    in edit mode, yet its surface holds the frame. *)
Lemma idle_input_is_framed_counterexample :
  exists self sf vr,
    mines_input = Returned self /\
    Input.in_input self = false /\
    Input.surface self = Some sf /\
    Input.value_rect self = Some vr /\
    has_frame sf vr = true.
Proof.
  do 3 eexists. split; [vm_compute; reflexivity |].
  split; [| split; [| split]]; vm_compute; reflexivity.
Qed.

(** ** [SelectionGroup]: the scan of the rows *)



Lemma map_snd_combine {A B : Type} (l1 : list A) (l2 : list B) :
  List.length l1 = List.length l2 -> map snd (combine l1 l2) = l2.
Proof.
  revert l2. induction l1 as [| a l1 IH]; intros [| b l2] Hlen;
    try discriminate; [reflexivity |].
  cbn. f_equal. apply IH. now inversion Hlen.
Qed.

Section Scan.

Context {Env : Type}.

Lemma scan_rows_miss (rows : list (Rect.t * Rect.t)) (x y : Z) :
  forall (i0 : nat) (w : SelectionGroup.World Env),
    first_hit (map snd rows) x y = None ->
    SelectionGroup.scan_rows i0 rows x y w = (Returned tt, w).
Proof.
  induction rows as [| [button_rect item_rect] rows IH]; intros i0 w Hmiss;
    [reflexivity |].
  cbn in *. destruct (Rect.collidepoint item_rect x y); [discriminate |].
  apply IH. destruct (first_hit _ _ _); [discriminate | reflexivity].
Qed.

Lemma scan_rows_hit (rows : list (Rect.t * Rect.t)) (x y : Z) :
  forall (i0 k : nat) (sg : SelectionGroup.t Env) (env : Env) (option : string),
    first_hit (map snd rows) x y = Some k ->
    nth_error (SelectionGroup.options sg) (i0 + k) = Some option ->
    SelectionGroup.scan_rows i0 rows x y (sg, env)
    = (Returned tt,
       (SelectionGroup.set__selected (i0 + k) sg,
        if Nat.eqb (i0 + k) (SelectionGroup._selected sg) then env
        else notify sg option env)).
Proof.
  induction rows as [| [button_rect item_rect] rows IH];
    intros i0 k sg env option Hhit Hoption; [discriminate |].
  cbn in Hhit. cbn [SelectionGroup.scan_rows].
  destruct (Rect.collidepoint item_rect x y).
  - inversion Hhit. subst k. rewrite Nat.add_0_r in *.
    py_unfold. cbn. unfold notify.
    destruct (SelectionGroup.callback sg) as [cb |]; cbn.
    + destruct (Nat.eqb i0 (SelectionGroup._selected sg)); cbn; [reflexivity |].
      unfold index. rewrite Hoption. reflexivity.
    + destruct (Nat.eqb i0 (SelectionGroup._selected sg)); reflexivity.
  - destruct (first_hit (map snd rows) x y) as [k' |] eqn:Hrest;
      [| discriminate].
    inversion Hhit. subst k.
    replace (i0 + S k')%nat with (S i0 + k')%nat in * by lia.
    apply IH; [reflexivity | assumption].
Qed.

End Scan.

Lemma first_hit_lt (rects : list Rect.t) (x y : Z) :
  forall i, first_hit rects x y = Some i -> (i < List.length rects)%nat.
Proof.
  induction rects as [| r rects IH]; intros i H; [discriminate |].
  cbn in *. destruct (Rect.collidepoint r x y).
  - inversion H. lia.
  - destruct (first_hit rects x y) as [k |]; [| discriminate].
    inversion H. specialize (IH k eq_refl). lia.
Qed.

(** Whatever the button and wherever the pointer, [on_mouse_down] takes a
    well-formed group to a well-formed group. *)
Lemma mouse_down_preserves_well_formed {Env : Type}
      (sg : SelectionGroup.t Env) (env : Env) (button : Z) (mouse_pos : Z * Z) :
  group_well_formed sg ->
  group_well_formed
    (fst (snd (SelectionGroup.on_mouse_down button mouse_pos (sg, env)))).
Proof.
  intros Hwf. pose proof Hwf as [Hbuttons Hoptions Hselected].
  pose proof (map_snd_combine _ _ Hbuttons) as Hrows.
  unfold SelectionGroup.on_mouse_down.
  destruct (negb (button =? LEFT_CLICK)); [exact Hwf |].
  py_unfold. cbn [fst snd].
  match goal with
  | |- context [SelectionGroup.scan_rows 0 ?rows ?x ?y _] =>
      destruct (first_hit (map snd rows) x y) as [i |] eqn:Hscan
  end.
  - pose proof (first_hit_lt _ _ _ _ Hscan) as Hi. rewrite Hrows in Hi.
    destruct (nth_error (SelectionGroup.options sg) i) as [option |] eqn:Hopt;
      [| apply nth_error_None in Hopt; lia].
    rewrite (scan_rows_hit _ _ _ 0%nat i sg env option Hscan Hopt).
    cbn [Nat.add fst snd SelectionGroup._selected SelectionGroup.set__selected].
    destruct (negb _); [| constructor; cbn; assumption].
    unfold index.
    cbn [fst snd SelectionGroup.button_rects SelectionGroup.set__selected].
    destruct (nth_error (SelectionGroup.button_rects sg)
                        (SelectionGroup._selected sg));
      [| constructor; cbn; assumption].
    cbn. destruct (nth_error (SelectionGroup.button_rects sg) i);
      constructor; cbn; assumption.
  - rewrite (scan_rows_miss _ _ _ 0%nat (sg, env) Hscan).
    cbn [fst snd]. rewrite Nat.eqb_refl. exact Hwf.
Qed.

(** ** [SelectionGroup.on_mouse_down] *)

Lemma set_selected_same {Env : Type} (sg : SelectionGroup.t Env) :
  SelectionGroup.set__selected (SelectionGroup._selected sg) sg = sg.
Proof. destruct sg; reflexivity. Qed.


(** ** [SelectionGroup.__init__] *)

Lemma render_raises (font : Font.t) (text : string) (color : Color)
      (e : Exception) :
  Font.render font text color = Raised e -> e = PygameError.
Proof.
  unfold Font.render. destruct (Font.renders font text); intro H;
    inversion H; reflexivity.
Qed.

Lemma render_all_raises (font : Font.t) (color : Color) (texts : list string)
      (e : Exception) :
  render_all font color texts = Raised e -> e = PygameError.
Proof.
  induction texts as [| text texts IH]; cbn; [discriminate |].
  destruct (Font.render font text color) eqn:Hrender.
  - destruct (render_all font color texts); [discriminate |].
    intro H. inversion H. subst. now apply IH.
  - intro H. inversion H. subst. exact (render_raises _ _ _ _ Hrender).
Qed.

Lemma render_all_length (font : Font.t) (color : Color) (texts : list string) :
  forall images,
    render_all font color texts = Returned images ->
    List.length images = List.length texts.
Proof.
  induction texts as [| text texts IH]; cbn; intros images H.
  - inversion H. reflexivity.
  - destruct (Font.render font text color); [| discriminate].
    destruct (render_all font color texts); [| discriminate].
    inversion H. cbn. f_equal. now apply IH.
Qed.

Lemma render_all_returns (font : Font.t) (color : Color) (texts : list string) :
  (forall text, In text texts -> Font.renders font text = true) ->
  exists images, render_all font color texts = Returned images.
Proof.
  induction texts as [| text texts IH]; intro Hall; cbn.
  - eexists. reflexivity.
  - unfold Font.render. rewrite (Hall text) by (left; reflexivity).
    destruct IH as [images Himages];
      [intros t Ht; apply Hall; right; exact Ht |].
    rewrite Himages. eexists. reflexivity.
Qed.

Lemma layout_rows_lengths (unselected_image : Surface) (item_height : Z)
      (rows : list (Surface * Q)) :
  forall y button_rects option_rects item_rects,
    SelectionGroup.layout_rows unselected_image item_height y rows
    = (button_rects, option_rects, item_rects) ->
    List.length button_rects = List.length rows /\
    List.length option_rects = List.length rows /\
    List.length item_rects = List.length rows.
Proof.
  induction rows as [| [option_image item_width] rows IH];
    intros y bs os is_ H; cbn in H.
  - inversion H. auto.
  - destruct (SelectionGroup.layout_rows _ _ _ rows) as [[bs' os'] is'] eqn:Hrest.
    inversion H. subst. cbn.
    destruct (IH _ _ _ _ Hrest) as (H1 & H2 & H3). auto.
Qed.

Lemma blit_content (source : Surface) (dest : Z * Z) (sf : Surface) :
  Surface.content (Surface.blit source dest sf)
  = Surface.content sf ++ [DrawBlit source dest].
Proof. destruct sf; reflexivity. Qed.

Lemma blit_each_content (image : Surface) (rects : list Rect.t) :
  forall sf,
    Surface.content (SelectionGroup.blit_each image rects sf)
    = Surface.content sf
      ++ map (fun r => DrawBlit image (Rect.topleft r)) rects.
Proof.
  unfold SelectionGroup.blit_each.
  induction rects as [| r rects IH]; intro sf; cbn.
  - now rewrite app_nil_r.
  - rewrite IH. destruct sf as [w h c]. cbn. now rewrite <- app_assoc.
Qed.

Lemma init_returned {Env : Type} (font : Font.t) (font_color : Color)
      (unselected_image selected_image : Surface) (title : string)
      (options : list string)
      (on_change_callback : option (string -> nat -> Env -> Env))
      (position : Z * Z) (sg : SelectionGroup.t Env) :
  SelectionGroup.__init__ Env font font_color unselected_image selected_image
                          title options on_change_callback position
  = Returned sg ->
  SelectionGroup._selected sg = 0%nat /\
  SelectionGroup.options sg = options /\
  group_well_formed sg /\
  first_marked sg.
Proof.
  unfold SelectionGroup.__init__.
  destruct (negb _); [discriminate |].
  destruct (Font.render font title font_color) as [title_image |];
    [| discriminate].
  destruct (render_all font font_color options) as [option_images |] eqn:Himages;
    [| discriminate].
  cbv zeta.
  destruct (py_max _) as [widest |]; [| discriminate].
  destruct (SelectionGroup.layout_rows _ _ _ _) as [[bs os] is_] eqn:Hlayout.
  destruct (layout_rows_lengths _ _ _ _ _ _ _ Hlayout) as (Hbs & _ & His).
  rewrite length_combine, length_map, Nat.min_id in Hbs, His.
  apply render_all_length in Himages.
  destruct bs as [| first rest]; [discriminate |].
  unfold index. cbn [nth_error].
  intro H. inversion H. subst sg. clear H. cbn.
  split; [reflexivity | split; [reflexivity | split]].
  - constructor; cbn in *; lia.
  - do 3 eexists. split; [reflexivity |].
    cbn [tl SelectionGroup.surface SelectionGroup.selected_image
         SelectionGroup.unselected_image].
    rewrite blit_each_content, blit_content, <- app_assoc.
    reflexivity.
Qed.

Lemma render_all_raises_at (font : Font.t) (color : Color) (texts : list string)
      (e : Exception) :
  render_all font color texts = Raised e ->
  exists text, In text texts /\ Font.renders font text = false.
Proof.
  induction texts as [| text texts IH]; cbn; [discriminate |].
  unfold Font.render at 1. destruct (Font.renders font text) eqn:Hrenders.
  - destruct (render_all font color texts); [discriminate |].
    intro H. inversion H. subst.
    destruct (IH eq_refl) as (t & Hin & Ht). exists t. auto.
  - intros _. exists text. auto.
Qed.

Lemma sizes_differ_iff (a b : Surface) :
  negb ((Surface.get_width a =? Surface.get_width b)
        && (Surface.get_height a =? Surface.get_height b)) = true
  <-> Surface.get_size a <> Surface.get_size b.
Proof.
  unfold Surface.get_size. rewrite negb_true_iff, andb_false_iff, !Z.eqb_neq.
  split.
  - intros [H | H] Heq; inversion Heq; contradiction.
  - intro Hne.
    destruct (Z.eq_dec (Surface.get_width a) (Surface.get_width b)) as [Hw | Hw];
      [right | left; exact Hw].
    intro Hh. apply Hne. now rewrite Hw, Hh.
Qed.

(** Every way [SelectionGroup.__init__] can fail. *)
Lemma init_raises {Env : Type} (font : Font.t) (font_color : Color)
      (unselected_image selected_image : Surface) (title : string)
      (options : list string)
      (on_change_callback : option (string -> nat -> Env -> Env))
      (position : Z * Z) (e : Exception) :
  SelectionGroup.__init__ Env font font_color unselected_image selected_image
                          title options on_change_callback position
  = Raised e ->
  (Surface.get_size unselected_image <> Surface.get_size selected_image /\
   e = ValueError unequal_images_message)
  \/
  (Surface.get_size unselected_image = Surface.get_size selected_image /\
   ((e = PygameError /\
     (Font.renders font title = false \/
      exists option, In option options /\ Font.renders font option = false))
    \/
    (e = ValueError "max() arg is an empty sequence" /\ options = []))).
Proof.
  unfold SelectionGroup.__init__.
  destruct (negb _) eqn:Htest.
  - intro H. inversion H. left. split; [| reflexivity].
    now apply sizes_differ_iff.
  - assert (Surface.get_size unselected_image = Surface.get_size selected_image)
      as Hsame.
    { apply negb_false_iff, andb_true_iff in Htest.
      destruct Htest as [Hw Hh]. apply Z.eqb_eq in Hw, Hh.
      unfold Surface.get_size. now rewrite Hw, Hh. }
    intro H. right. split; [exact Hsame |]. revert H.
    unfold Font.render at 1.
    destruct (Font.renders font title) eqn:Htitle;
      [| intro H; inversion H; left; auto].
    destruct (render_all font font_color options) as [option_images | e']
      eqn:Himages.
    + cbv zeta.
      destruct option_images as [| image images].
      * cbn [map py_max]. intro H. inversion H. right. split; [reflexivity |].
        apply render_all_length in Himages. destruct options; [reflexivity |].
        discriminate.
      * cbn [map py_max].
        destruct (SelectionGroup.layout_rows _ _ _ _) as [[bs os] is_]
          eqn:Hlayout.
        destruct (layout_rows_lengths _ _ _ _ _ _ _ Hlayout) as (Hbs & _).
        destruct bs as [| first rest]; [discriminate |].
        unfold index. cbn [nth_error]. discriminate.
    + intro H. inversion H. subst e'. left.
      split; [exact (render_all_raises _ _ _ _ Himages) |].
      right. exact (render_all_raises_at _ _ _ _ Himages).
Qed.

(** C6, as the code has it.  Construction fails with the error about the
    images exactly when the two marker images differ in size.  With images
    of equal size, a title and option labels the font can rasterise, and at
    least one option, construction succeeds: the selection is index 0, the
    first marker is the selected image and all the others the unselected
    one. *)
Theorem init_checks_marker_sizes {Env : Type} (font : Font.t)
        (font_color : Color) (unselected_image selected_image : Surface)
        (title : string) (options : list string)
        (on_change_callback : option (string -> nat -> Env -> Env))
        (position : Z * Z) :
  (Surface.get_size unselected_image <> Surface.get_size selected_image
   <->
   SelectionGroup.__init__ Env font font_color unselected_image selected_image
                           title options on_change_callback position
   = Raised (ValueError unequal_images_message)) /\
  (Surface.get_size unselected_image = Surface.get_size selected_image ->
   options <> [] ->
   Font.renders font title = true ->
   (forall option, In option options -> Font.renders font option = true) ->
   exists sg,
     SelectionGroup.__init__ Env font font_color unselected_image selected_image
                             title options on_change_callback position
     = Returned sg /\
     SelectionGroup._selected sg = 0%nat /\
     group_well_formed sg /\
     first_marked sg).
Proof.
  split; [split |].
  - intro Hne. apply sizes_differ_iff in Hne.
    unfold SelectionGroup.__init__. rewrite Hne. reflexivity.
  - intro Hraise. apply init_raises in Hraise.
    destruct Hraise as [[Hne _] | (_ & [[He _] | [He _]])];
      [exact Hne | discriminate He | discriminate He].
  - intros Hsame Hoptions Htitle Hlabels.
    destruct (SelectionGroup.__init__ Env font font_color unselected_image
                selected_image title options on_change_callback position)
      as [sg | e] eqn:Hinit.
    + exists sg. destruct (init_returned _ _ _ _ _ _ _ _ _ Hinit)
        as (H0 & _ & Hwf & Hmark). auto.
    + exfalso. apply init_raises in Hinit.
      destruct Hinit as [[Hne _] | (_ & [(_ & [Hbad | (o & Hin & Hbad)]) | [_ Hnil]])].
      * contradiction.
      * congruence.
      * rewrite (Hlabels o Hin) in Hbad. discriminate.
      * contradiction.
Qed.

Lemma init_checks_marker_sizes_witness :
  Surface.get_size radio_off = Surface.get_size radio_on /\
  ["Easy"; "Medium"; "Hard"] <> [] /\
  exists sg,
    difficulty_group = Returned sg /\
    SelectionGroup._selected sg = 0%nat /\
    group_well_formed sg /\
    first_marked sg.
Proof.
  split; [reflexivity |]. split; [discriminate |].
  apply (proj2 (init_checks_marker_sizes mono_font white radio_off radio_on
                  "Difficulty" ["Easy"; "Medium"; "Hard"]
                  (Some logging_callback) (100, 50))).
  - reflexivity.
  - discriminate.
  - reflexivity.
  - intros option _. reflexivity.
Defined.

(** C6 fails as stated.  Two markers of equal size and an empty list of
    options: construction raises, in [max(item_widths)]. *)
Lemma empty_options_counterexample :
  Surface.get_size radio_off = Surface.get_size radio_on /\
  SelectionGroup.__init__ (list (string * nat)) mono_font white radio_off
                          radio_on "Difficulty" [] None (100, 50)
  = Raised (ValueError "max() arg is an empty sequence").
Proof. split; vm_compute; reflexivity. Qed.


(** ** Two sessions *)

(** An [Input] holding "10", at most three digits: click on the value, type
    "5", type "9" (ignored, the value is full), press return. *)
Example mines_session :
  exists self0,
    mines_input = Returned self0 /\
    let typed :=
      Input.run pygame_key_name [click_on_value; Input.KeyPress K_5] self0 in
    let full := Input.run pygame_key_name [Input.KeyPress K_9] typed in
    let entered := Input.run pygame_key_name [Input.KeyPress K_RETURN] full in
    (Input.in_input typed = true /\ Input.current_value typed = "105") /\
    full = typed /\
    (Input.in_input entered = false /\ Input.value entered = "105").
Proof.
  eexists. split; [vm_compute; reflexivity |]. cbv zeta.
  split; [split | split; [| split]]; vm_compute; reflexivity.
Qed.

(** A group "Easy", "Medium", "Hard": a click on the third row calls the
    callback once, with "Hard" and while the selection is still 0; a second
    click on the same row calls nothing. *)
Example difficulty_session :
  exists sg,
    difficulty_group = Returned sg /\
    let once := snd (SelectionGroup.on_mouse_down LEFT_CLICK (110, 130) (sg, [])) in
    let twice := snd (SelectionGroup.on_mouse_down LEFT_CLICK (110, 130) once) in
    (SelectionGroup._selected (fst once) = 2%nat /\ snd once = [("Hard", 0%nat)]) /\
    (SelectionGroup._selected (fst twice) = 2%nat /\ snd twice = [("Hard", 0%nat)]).
Proof.
  eexists. split; [vm_compute; reflexivity |]. cbv zeta.
  split; split; vm_compute; reflexivity.
Qed.

(** * Further properties of the handlers *)

(** ** [Input]: what a call can change *)

(** Every call either leaves the object alone, or makes some assignments to
    [in_input], [value] and [current_value] and then renders, or (the return
    key with a callback that raises) leaves edit mode and stops. *)
Lemma perform_shape (key_name : Z -> string) (op : Input.Op) (self : Input.t) :
  snd (Input.perform key_name op self) = self
  \/
  (exists in_input' value' current_value',
      snd (Input.perform key_name op self)
      = snd (Input._prepare_render
               (Input.update self in_input' value' current_value'
                  (Input.surface self) (Input.value_rect self) (Input.rect self)
                  (Input.n_renders self))))
  \/
  (enter_raises self <> None /\
   snd (Input.perform key_name op self) = Input.with_in_input false self).
Proof.
  destruct op as [value | button mouse_pos | key]; cbn [Input.perform].
  - unfold Input.set_value. py_unfold.
    destruct (py_eq_str _ _); [left; reflexivity |].
    right. left. do 3 eexists. input_unfold. cbn. reflexivity.
  - unfold Input.on_mouse_click. py_unfold.
    destruct (negb (Input.active_input self) || negb (button =? LEFT_CLICK));
      [left; reflexivity |].
    destruct (Input.rect self) as [r |] eqn:Hr; [| left; reflexivity].
    destruct (Input.value_rect self) as [vr |] eqn:Hvr; [| left; reflexivity].
    right. left. destruct (Rect.collidepoint _ _ _);
      do 3 eexists; input_unfold; cbn; rewrite ?Hr, ?Hvr; reflexivity.
  - destruct (Input.in_input self) eqn:Hedit;
      [| rewrite key_press_idle by assumption; left; reflexivity].
    destruct (Z.eq_dec key K_BACKSPACE) as [-> | Hback].
    + rewrite key_press_backspace by assumption.
      destruct (String.eqb _ _); [left; reflexivity |].
      right. left. do 3 eexists. input_unfold. reflexivity.
    + destruct (Z.eq_dec key K_RETURN) as [-> | Hret].
      * rewrite key_press_return by assumption. right.
        unfold enter_raises, after_enter.
        destruct (Input.on_enter_callback self) as [cb |];
          [destruct (cb (Input.current_value self)) as [[|] | e] |];
          try (left; do 3 eexists; input_unfold; cbn; reflexivity).
        right. split; [discriminate | reflexivity].
      * rewrite key_press_other by assumption.
        destruct (Input.len_is _ _); [left; reflexivity |].
        destruct (Input.symbol_allowed _ _); [| left; reflexivity].
        right. left. do 3 eexists. input_unfold. reflexivity.
Qed.

(** No call changes the configuration. *)
Lemma perform_keeps_configuration (key_name : Z -> string) (op : Input.Op)
      (self : Input.t) :
  let self' := snd (Input.perform key_name op self) in
  Input.active_input self' = Input.active_input self /\
  Input.max_value_length self' = Input.max_value_length self /\
  Input.allowed_symbols self' = Input.allowed_symbols self.
Proof.
  cbv zeta.
  destruct (perform_shape key_name op self)
    as [-> | [(b & v & c & ->) | [_ ->]]]; [auto | | cbn; auto].
  match goal with
  | |- context [Input._prepare_render ?s] =>
      destruct (prepare_render_keeps s) as (_ & _ & _ & Hact & _ & Hmax & Hsym & _)
  end.
  rewrite Hact, Hmax, Hsym. auto.
Qed.

Lemma run_keeps_configuration (key_name : Z -> string) (ops : list Input.Op) :
  forall self,
    let self' := Input.run key_name ops self in
    Input.active_input self' = Input.active_input self /\
    Input.max_value_length self' = Input.max_value_length self /\
    Input.allowed_symbols self' = Input.allowed_symbols self.
Proof.
  induction ops as [| op ops IH]; intro self; cbn; [auto |].
  destruct (IH (snd (Input.perform key_name op self))) as (H1 & H2 & H3).
  destruct (perform_keeps_configuration key_name op self) as (K1 & K2 & K3).
  cbv zeta in *. unfold Input.run in *.
  rewrite H1, H2, H3. auto.
Qed.

(** A call other than [set_value] and the return key keeps the committed
    value. *)
Lemma perform_keeps_value (key_name : Z -> string) (op : Input.Op)
      (self : Input.t) :
  commits op = false ->
  Input.value (snd (Input.perform key_name op self)) = Input.value self.
Proof.
  destruct op as [value | button mouse_pos | key]; cbn [Input.perform commits];
    intro Hop.
  - discriminate.
  - unfold Input.on_mouse_click. py_unfold.
    destruct (negb (Input.active_input self) || negb (button =? LEFT_CLICK));
      [reflexivity |].
    destruct (Input.rect self) as [r |]; [| reflexivity].
    destruct (Input.value_rect self) as [vr |]; [| reflexivity].
    destruct (Rect.collidepoint _ _ _);
      match goal with
      | |- context [Input._prepare_render ?s] =>
          destruct (prepare_render_keeps s) as (_ & Hval & _)
      end; rewrite Hval; reflexivity.
  - apply Z.eqb_neq in Hop.
    destruct (Input.in_input self) eqn:Hedit;
      [| rewrite key_press_idle by assumption; reflexivity].
    destruct (Z.eq_dec key K_BACKSPACE) as [-> | Hback].
    + rewrite key_press_backspace by assumption.
      destruct (String.eqb _ _); [reflexivity |].
      match goal with
      | |- context [Input._prepare_render ?s] =>
          destruct (prepare_render_keeps s) as (_ & Hval & _)
      end. rewrite Hval. reflexivity.
    + rewrite key_press_other by assumption.
      destruct (Input.len_is _ _); [reflexivity |].
      destruct (Input.symbol_allowed _ _); [| reflexivity].
      match goal with
      | |- context [Input._prepare_render ?s] =>
          destruct (prepare_render_keeps s) as (_ & Hval & _)
      end. rewrite Hval. reflexivity.
Qed.

(** X1.  The committed value of an [Input] changes only through [set_value]
    or the return key: after any sequence of mouse clicks and other key
    presses, whatever the state they start from and whether or not a render
    fails on the way, the committed value is what it was. *)
Theorem only_return_and_set_value_commit (key_name : Z -> string)
        (ops : list Input.Op) (self : Input.t) :
  forallb (fun op => negb (commits op)) ops = true ->
  Input.value (Input.run key_name ops self) = Input.value self.
Proof.
  revert self. induction ops as [| op ops IH]; intros self Hops;
    [reflexivity |].
  cbn in Hops. apply andb_true_iff in Hops. destruct Hops as [Hop Hops].
  apply negb_true_iff in Hop.
  cbn. unfold Input.run in IH. rewrite IH by exact Hops.
  apply perform_keeps_value. exact Hop.
Qed.

Lemma only_return_and_set_value_commit_witness :
  exists self0,
    mines_input = Returned self0 /\
    let ops :=
      [click_on_value; Input.KeyPress K_BACKSPACE; Input.KeyPress K_5;
       Input.MouseClick LEFT_CLICK (0, 0)] in
    forallb (fun op => negb (commits op)) ops = true /\
    Input.value (Input.run pygame_key_name ops self0) = Input.value self0.
Proof.
  eexists. split; [vm_compute; reflexivity |]. cbv zeta.
  split; [vm_compute; reflexivity |].
  apply (only_return_and_set_value_commit pygame_key_name).
  vm_compute; reflexivity.
Defined.

(** ** [Input]: sequences of key presses *)

Lemma append_assoc (s t u : string) :
  ((s ++ t) ++ u = s ++ (t ++ u))%string.
Proof. induction s as [| c s IH]; cbn; [reflexivity | now rewrite IH]. Qed.

Lemma append_empty (s : string) : (s ++ "")%string = s.
Proof. induction s as [| c s IH]; cbn; [reflexivity | now rewrite IH]. Qed.

Lemma drop_last_empty (s : string) :
  String.eqb s "" = true -> drop_last s = s.
Proof. intro H. apply String.eqb_eq in H. subst s. reflexivity. Qed.

(** What a key other than return does to an [Input] in edit mode. *)
Lemma key_press_edits (key_name : Z -> string) (key : Z) (self : Input.t) :
  Input.in_input self = true ->
  key <> K_RETURN ->
  let self' := snd (Input.on_key_press key_name key self) in
  Input.in_input self' = true /\
  Input.current_value self'
  = if key =? K_BACKSPACE then drop_last (Input.current_value self)
    else if Input.len_is (Input.current_value self) (Input.max_value_length self)
    then Input.current_value self
    else if Input.symbol_allowed (Input.allowed_symbols self) (key_name key)
    then (Input.current_value self ++ key_name key)%string
    else Input.current_value self.
Proof.
  intros Hedit Hret. cbv zeta.
  destruct (Z.eq_dec key K_BACKSPACE) as [-> | Hback].
  - rewrite Z.eqb_refl, key_press_backspace by assumption.
    destruct (String.eqb _ _) eqn:Hempty.
    + cbn. split; [exact Hedit | now rewrite drop_last_empty].
    + match goal with
      | |- context [Input._prepare_render ?s] =>
          destruct (prepare_render_keeps s) as (Hin & _ & Hcur & _)
      end. rewrite Hin, Hcur. cbn. auto.
  - rewrite key_press_other by assumption.
    apply Z.eqb_neq in Hback. rewrite Hback.
    destruct (Input.len_is _ _); [cbn; auto |].
    destruct (Input.symbol_allowed _ _); [| cbn; auto].
    match goal with
    | |- context [Input._prepare_render ?s] =>
        destruct (prepare_render_keeps s) as (Hin & _ & Hcur & _)
    end. rewrite Hin, Hcur. cbn. auto.
Qed.

Lemma keys_keep_value (key_name : Z -> string) (keys : list Z) :
  forall self,
    forallb (fun key => negb (key =? K_RETURN)) keys = true ->
    Input.value (Input.run key_name (map Input.KeyPress keys) self)
    = Input.value self.
Proof.
  induction keys as [| key keys IH]; intros self Hkeys; [reflexivity |].
  cbn in Hkeys. apply andb_true_iff in Hkeys. destruct Hkeys as [Hkey Hkeys].
  apply negb_true_iff in Hkey.
  cbn. unfold Input.run in IH. rewrite IH by exact Hkeys.
  apply (perform_keeps_value key_name (Input.KeyPress key)). exact Hkey.
Qed.

(** X2.  Clicking away cancels an edit.  Take an editable [Input], any keys
    typed into it except return, and then a left click that misses the value
    rectangle as it is drawn at that moment: the widget is out of edit mode
    and both its pending and its committed value are the committed value
    from before the typing. *)
Theorem click_away_discards_edit (key_name : Z -> string) (self : Input.t)
        (keys : list Z) (mouse_pos : Z * Z) (r vr : Rect.t) :
  Input.active_input self = true ->
  forallb (fun key => negb (key =? K_RETURN)) keys = true ->
  let typed := Input.run key_name (map Input.KeyPress keys) self in
  Input.rect typed = Some r ->
  Input.value_rect typed = Some vr ->
  Rect.collidepoint vr (fst mouse_pos - Rect.x r) (snd mouse_pos - Rect.y r)
  = false ->
  let final := snd (Input.on_mouse_click LEFT_CLICK mouse_pos typed) in
  Input.in_input final = false /\
  Input.value final = Input.value self /\
  Input.current_value final = Input.value self.
Proof.
  intros Hactive Hkeys typed Hr Hvr Hmiss final.
  pose proof (keys_keep_value key_name keys self Hkeys) as Hvalue.
  destruct (run_keeps_configuration key_name (map Input.KeyPress keys) self)
    as (Hact & _).
  fold typed in Hvalue, Hact. rewrite Hactive in Hact.
  subst final. unfold Input.on_mouse_click. py_unfold.
  rewrite Hact, Z.eqb_refl. cbn [negb orb]. cbv beta iota.
  rewrite Hr. cbv beta iota. rewrite Hvr. cbv beta iota. rewrite Hmiss.
  cbv beta iota.
  match goal with
  | |- context [Input._prepare_render ?s] =>
      destruct (prepare_render_keeps s) as (Hin & Hval & Hcur & _)
  end.
  rewrite Hin, Hval, Hcur. cbn. rewrite Hvalue. auto.
Qed.

Lemma click_away_discards_edit_witness :
  exists self0,
    mines_input = Returned self0 /\
    let self := Input.run pygame_key_name [click_on_value] self0 in
    let keys := [K_BACKSPACE; K_5; K_9] in
    let typed := Input.run pygame_key_name (map Input.KeyPress keys) self in
    Input.current_value typed = "159" /\
    Input.rect typed = Some (Rect.make 20 300 88 16) /\
    Input.value_rect typed = Some (Rect.make 48 0 48 16) /\
    let final := snd (Input.on_mouse_click LEFT_CLICK (30, 305) typed) in
    Input.in_input final = false /\
    Input.value final = "10" /\
    Input.current_value final = "10".
Proof.
  eexists. split; [vm_compute; reflexivity |]. cbv zeta.
  split; [vm_compute; reflexivity |].
  split; [vm_compute; reflexivity |].
  split; [vm_compute; reflexivity |].
  match goal with
  | |- context [Input.run pygame_key_name (map Input.KeyPress ?keys) ?s] =>
      apply (click_away_discards_edit pygame_key_name s keys (30, 305)
               (Rect.make 20 300 88 16) (Rect.make 48 0 48 16))
  end; vm_compute; reflexivity.
Defined.

Lemma is_character_key_spec (key : Z) :
  is_character_key key = true -> key <> K_BACKSPACE /\ key <> K_RETURN.
Proof.
  unfold is_character_key. rewrite andb_true_iff, !negb_true_iff, !Z.eqb_neq.
  auto.
Qed.

(** X3.  Typing into an [Input] without a length limit: after any sequence
    of keys other than backspace and return, the pending value is the old
    pending value followed by the names of the keys, in order, that pass the
    [allowed_symbols] filter, even when renders fail on the way. *)
Theorem typing_appends_allowed_names (key_name : Z -> string) (keys : list Z) :
  forall self : Input.t,
    Input.in_input self = true ->
    Input.max_value_length self = None ->
    forallb is_character_key keys = true ->
    Input.current_value (Input.run key_name (map Input.KeyPress keys) self)
    = (Input.current_value self
       ++ typed_text (Input.allowed_symbols self) (map key_name keys))%string.
Proof.
  induction keys as [| key keys IH]; intros self Hedit Hmax Hkeys.
  - cbn. now rewrite append_empty.
  - cbn in Hkeys. apply andb_true_iff in Hkeys. destruct Hkeys as [Hkey Hkeys].
    destruct (is_character_key_spec key Hkey) as [Hback Hret].
    destruct (key_press_edits key_name key self Hedit Hret) as [Hin Hcur].
    destruct (perform_keeps_configuration key_name (Input.KeyPress key) self)
      as (_ & Hmax' & Hsym').
    cbn [Input.perform] in Hmax', Hsym'.
    apply Z.eqb_neq in Hback. rewrite Hback in Hcur.
    unfold Input.len_is in Hcur. rewrite Hmax in Hcur.
    cbn [map Input.run fold_left Input.perform]. unfold Input.run in IH.
    rewrite IH; [| exact Hin | now rewrite Hmax' | exact Hkeys].
    rewrite Hcur, Hsym'. cbn [typed_text].
    destruct (Input.symbol_allowed _ _); cbn [append].
    + now rewrite append_assoc.
    + reflexivity.
Qed.

Lemma typing_appends_allowed_names_witness :
  exists self0,
    name_input = Returned self0 /\
    let self := Input.run pygame_key_name [click_on_name] self0 in
    let keys := [K_5; K_SPACE; K_9] in
    Input.in_input self = true /\
    Input.max_value_length self = None /\
    Input.current_value (Input.run pygame_key_name (map Input.KeyPress keys) self)
    = (Input.current_value self
       ++ typed_text (Input.allowed_symbols self)
                     (map pygame_key_name keys))%string.
Proof.
  eexists. split; [vm_compute; reflexivity |]. cbv zeta.
  split; [vm_compute; reflexivity |].
  split; [vm_compute; reflexivity |].
  apply (typing_appends_allowed_names pygame_key_name [K_5; K_SPACE; K_9]);
    vm_compute; reflexivity.
Defined.

Lemma drop_last_length (s : string) :
  String.length (drop_last s) = (String.length s - 1)%nat.
Proof.
  induction s as [| c s IH]; [reflexivity |].
  destruct s as [| c' s]; [reflexivity |].
  change (drop_last (String c (String c' s)))
    with (String c (drop_last (String c' s))).
  cbn [String.length] in *. rewrite IH. lia.
Qed.

(** X4.  The length limit holds for keys with one-character names.  If an
    [Input] in edit mode has a pending value no longer than
    [max_value_length], then after any sequence of backspaces and of keys
    whose name is at most one character long the pending value is still no
    longer than [max_value_length]. *)
Theorem short_keys_respect_max (key_name : Z -> string) (m : Z)
        (keys : list Z) :
  forall self : Input.t,
    Input.in_input self = true ->
    Input.max_value_length self = Some m ->
    Z.of_nat (String.length (Input.current_value self)) <= m ->
    forallb (is_short_key key_name) keys = true ->
    Z.of_nat (String.length
                (Input.current_value
                   (Input.run key_name (map Input.KeyPress keys) self)))
    <= m.
Proof.
  induction keys as [| key keys IH]; intros self Hedit Hmax Hlen Hkeys;
    [exact Hlen |].
  cbn in Hkeys. apply andb_true_iff in Hkeys. destruct Hkeys as [Hkey Hkeys].
  unfold is_short_key in Hkey. apply andb_true_iff in Hkey.
  destruct Hkey as [Hret Hshort].
  apply negb_true_iff, Z.eqb_neq in Hret.
  destruct (key_press_edits key_name key self Hedit Hret) as [Hin Hcur].
  destruct (perform_keeps_configuration key_name (Input.KeyPress key) self)
    as (_ & Hmax' & _).
  cbn [Input.perform] in Hmax'.
  cbn [map Input.run fold_left Input.perform]. unfold Input.run in IH.
  apply IH; [exact Hin | now rewrite Hmax' | | exact Hkeys].
  rewrite Hcur. unfold Input.len_is. rewrite Hmax.
  destruct (key =? K_BACKSPACE) eqn:Hback.
  - rewrite drop_last_length. lia.
  - cbn [orb] in Hshort. apply Nat.leb_le in Hshort.
    destruct (Z.eqb_spec (Z.of_nat (String.length (Input.current_value self))) m);
      [exact Hlen |].
    destruct (Input.symbol_allowed _ _); [| exact Hlen].
    rewrite length_append. lia.
Qed.

Lemma short_keys_respect_max_witness :
  exists self0,
    mines_input = Returned self0 /\
    let self := Input.run pygame_key_name [click_on_value] self0 in
    let keys := [K_5; K_9; K_BACKSPACE; K_BACKSPACE; K_9; K_5; K_5] in
    Input.in_input self = true /\
    Input.max_value_length self = Some 3 /\
    Z.of_nat (String.length (Input.current_value self)) <= 3 /\
    Z.of_nat (String.length
                (Input.current_value
                   (Input.run pygame_key_name (map Input.KeyPress keys) self)))
    <= 3.
Proof.
  eexists. split; [vm_compute; reflexivity |]. cbv zeta.
  split; [vm_compute; reflexivity |].
  split; [vm_compute; reflexivity |].
  split; [vm_compute; discriminate |].
  apply (short_keys_respect_max pygame_key_name 3
           [K_5; K_9; K_BACKSPACE; K_BACKSPACE; K_9; K_5; K_5]).
  - vm_compute; reflexivity.
  - vm_compute; reflexivity.
  - vm_compute; discriminate.
  - vm_compute; reflexivity.
Defined.

Lemma substring_drop_last (s : string) :
  forall n,
    (n <= String.length s - 1)%nat ->
    substring 0 n (drop_last s) = substring 0 n s.
Proof.
  induction s as [| c s IH]; intros n Hn; [reflexivity |].
  destruct s as [| c' s].
  - cbn in Hn. assert (n = 0%nat) as -> by lia. reflexivity.
  - change (drop_last (String c (String c' s)))
      with (String c (drop_last (String c' s))).
    destruct n as [| n]; [reflexivity |].
    cbn [substring]. f_equal. apply IH. cbn [String.length] in *. lia.
Qed.

Lemma substring_all (s : string) : substring 0 (String.length s) s = s.
Proof. induction s as [| c s IH]; cbn; [reflexivity | now rewrite IH]. Qed.

(** X5.  Backspace removes one character at a time from the end of the
    pending value and stops at the empty string: after [k] backspaces in edit
    mode the pending value is the first [len - k] characters of the old one
    (none when [k] exceeds the length), the widget is still in edit mode and
    the committed value is untouched. *)
Theorem backspaces_strip_suffix (key_name : Z -> string) (k : nat) :
  forall self : Input.t,
    Input.in_input self = true ->
    let self' :=
      Input.run key_name (repeat (Input.KeyPress K_BACKSPACE) k) self in
    Input.current_value self'
    = substring 0 (String.length (Input.current_value self) - k)
                (Input.current_value self) /\
    Input.in_input self' = true /\
    Input.value self' = Input.value self.
Proof.
  induction k as [| k IH]; intros self Hedit; cbv zeta.
  - cbn. rewrite Nat.sub_0_r, substring_all. auto.
  - assert (K_BACKSPACE <> K_RETURN) as Hret by discriminate.
    destruct (key_press_edits key_name K_BACKSPACE self Hedit Hret)
      as [Hin Hcur].
    rewrite Z.eqb_refl in Hcur.
    pose proof (perform_keeps_value key_name (Input.KeyPress K_BACKSPACE) self
                  eq_refl) as Hval.
    cbn [Input.perform] in Hval.
    cbn [repeat Input.run fold_left Input.perform].
    destruct (IH _ Hin) as (IHcur & IHin & IHval).
    unfold Input.run in IHcur, IHin, IHval.
    rewrite IHcur, IHin, IHval, Hcur, Hval, drop_last_length.
    split; [| auto].
    rewrite substring_drop_last by lia. f_equal. lia.
Qed.

Lemma backspaces_strip_suffix_witness :
  exists self0,
    long_input = Returned self0 /\
    let self := Input.run pygame_key_name [click_on_value] self0 in
    Input.in_input self = true /\
    let self' :=
      Input.run pygame_key_name (repeat (Input.KeyPress K_BACKSPACE) 2) self in
    Input.current_value self'
    = substring 0 (String.length (Input.current_value self) - 2)
                (Input.current_value self) /\
    Input.in_input self' = true /\
    Input.value self' = Input.value self.
Proof.
  eexists. split; [vm_compute; reflexivity |]. cbv zeta.
  split; [vm_compute; reflexivity |].
  apply (backspaces_strip_suffix pygame_key_name 2).
  vm_compute; reflexivity.
Defined.

(** X6.  A read-only [Input] (built with [active_input] false, hence never
    in edit mode) ignores the mouse and the keyboard altogether: after any
    sequence of mouse clicks and key presses the object is unchanged in
    every attribute, and nothing was rendered. *)
Theorem inactive_input_ignores_events (key_name : Z -> string)
        (ops : list Input.Op) (self : Input.t) :
  Input.active_input self = false ->
  Input.in_input self = false ->
  forallb is_event ops = true ->
  Input.run key_name ops self = self.
Proof.
  intros Hactive Hidle. induction ops as [| op ops IH]; intro Hops;
    [reflexivity |].
  cbn in Hops. apply andb_true_iff in Hops. destruct Hops as [Hop Hops].
  cbn. replace (snd (Input.perform key_name op self)) with self;
    [exact (IH Hops) |].
  destruct op as [value | button mouse_pos | key]; cbn [Input.perform].
  - discriminate.
  - unfold Input.on_mouse_click. py_unfold. rewrite Hactive. reflexivity.
  - now rewrite key_press_idle.
Qed.

Lemma inactive_input_ignores_events_witness :
  exists self0,
    timer_input = Returned self0 /\
    Input.active_input self0 = false /\
    Input.in_input self0 = false /\
    Input.run pygame_key_name
      [Input.MouseClick LEFT_CLICK (50, 5); Input.KeyPress K_5;
       Input.KeyPress K_RETURN; Input.KeyPress K_BACKSPACE] self0
    = self0.
Proof.
  eexists. split; [vm_compute; reflexivity |].
  split; [vm_compute; reflexivity |].
  split; [vm_compute; reflexivity |].
  apply (inactive_input_ignores_events pygame_key_name); vm_compute; reflexivity.
Defined.

(** ** [Input]: the bounding rectangle *)

(** What a render does to the cached surface and the bounding rectangle. *)
Lemma prepare_render_geometry (self : Input.t) :
  (exists e, Input._prepare_render self = (Raised e, Input.count_render self))
  \/
  (exists sf self',
      Input._prepare_render self = (Returned tt, self') /\
      Input.surface self' = Some sf /\
      Input.rect self'
      = option_map (Rect.set_size (Surface.get_size sf)) (Input.rect self) /\
      Input.width self' = Input.width self /\
      (forall w, Input.width self = Some w -> Surface.get_width sf = w)).
Proof.
  unfold Input._prepare_render. py_unfold. unfold Font.render. cbn.
  destruct (Font.renders _ _).
  - right. input_unfold. cbn.
    destruct (Input.active_input self); destruct (Input.rect self) eqn:Hrect;
      cbn; do 2 eexists;
      (split; [reflexivity |]); cbn; rewrite ?Hrect;
      (split; [reflexivity |]); (split; [reflexivity |]);
      (split; [reflexivity |]);
      intros w Hw; rewrite Hw; reflexivity.
  - left. eexists. reflexivity.
Qed.

Lemma render_keeps_geometry (position : Z * Z) (self : Input.t) :
  rect_follows_surface position self ->
  rect_follows_surface position (snd (Input._prepare_render self)).
Proof.
  intros (sf & r & Hsf & Hr & Hpos & Hsize & Hwidth).
  destruct (prepare_render_geometry self)
    as [[e H] | (sf' & self' & H & Hsf' & Hr' & Hw' & Hwidth')];
    rewrite H; cbn [snd].
  - exists sf, r. cbn. auto.
  - exists sf', (Rect.set_size (Surface.get_size sf') r).
    rewrite Hsf', Hr', Hr, Hw'. cbn. auto.
Qed.

Lemma perform_keeps_geometry (key_name : Z -> string) (position : Z * Z)
      (op : Input.Op) (self : Input.t) :
  rect_follows_surface position self ->
  rect_follows_surface position (snd (Input.perform key_name op self)).
Proof.
  intro Hgeo.
  destruct (perform_shape key_name op self)
    as [-> | [(b & v & c & ->) | [_ ->]]]; [exact Hgeo | |].
  - apply render_keeps_geometry.
    destruct Hgeo as (sf & r & Hsf & Hr & Hpos & Hsize & Hwidth).
    exists sf, r. cbn. auto.
  - destruct Hgeo as (sf & r & Hsf & Hr & Hpos & Hsize & Hwidth).
    exists sf, r. cbn. auto.
Qed.

Lemma init_geometry (font : Font.t) (font_color : Color) (title : string)
      (value : PyValue) (delimiter : string) (frame_color : option Color)
      (active_input : bool) (width max_value_length : option Z)
      (allowed_symbols : option (list string))
      (on_enter_callback : option (string -> Outcome bool)) (position : Z * Z)
      (self : Input.t) :
  Input.__init__ font font_color title value delimiter frame_color active_input
                 width max_value_length allowed_symbols on_enter_callback
                 position = Returned self ->
  rect_follows_surface position self.
Proof.
  unfold Input.__init__.
  match goal with
  | |- context [Input._prepare_render ?s] =>
      destruct (prepare_render_geometry s)
        as [[e H] | (sf & self1 & H & Hsf & _ & Hw & Hwidth)]
  end; rewrite H; [discriminate |].
  rewrite Hsf. intro Heq. inversion Heq. subst self. clear Heq.
  exists sf, (Surface.get_rect_topleft sf position). cbn.
  rewrite Hsf, Hw. cbn. destruct position. auto.
Qed.

(** X7.  The bounding rectangle of an [Input] follows its surface.  After
    construction and after any sequence of [set_value], click and key calls,
    failed renders included, the object has a cached surface and a bounding
    rectangle; the rectangle sits at the construction position and has
    exactly the size of the cached surface; and when a fixed [width] was
    configured, the surface has that width. *)
Theorem input_rect_follows_surface
        (key_name : Z -> string) (font : Font.t) (font_color : Color)
        (title : string) (value : PyValue) (delimiter : string)
        (frame_color : option Color) (active_input : bool)
        (width max_value_length : option Z)
        (allowed_symbols : option (list string))
        (on_enter_callback : option (string -> Outcome bool)) (position : Z * Z)
        (ops : list Input.Op) (self0 : Input.t) :
  Input.__init__ font font_color title value delimiter frame_color active_input
                 width max_value_length allowed_symbols on_enter_callback
                 position = Returned self0 ->
  rect_follows_surface position (Input.run key_name ops self0).
Proof.
  intro Hinit. apply init_geometry in Hinit.
  revert self0 Hinit. induction ops as [| op ops IH]; intros self Hgeo;
    [exact Hgeo |].
  cbn. apply IH. apply perform_keeps_geometry. exact Hgeo.
Qed.

Lemma input_rect_follows_surface_witness :
  exists self0,
    timer_input = Returned self0 /\
    rect_follows_surface (0, 0)
      (Input.run pygame_key_name
         [Input.SetValue (PyInt 1); Input.SetValue (PyInt 12345678)] self0).
Proof.
  eexists. split; [vm_compute; reflexivity |].
  refine (input_rect_follows_surface pygame_key_name mono_font white "TIME"
            (PyInt 0) "  " None false (Some 120) None None None (0, 0) _ _ _).
  vm_compute; reflexivity.
Defined.

(** ** [Input.set_value] twice *)

(** X8.  [set_value] with a string is idempotent: a second call with the
    same string returns without changing anything and without rendering,
    whatever the first call did.  With an integer it is not: every call,
    repeated or not, renders once more. *)
Theorem set_value_twice (self : Input.t) :
  (forall s : string,
      let once := snd (Input.set_value (PyStr s) self) in
      Input.set_value (PyStr s) once = (Returned tt, once)) /\
  (forall n : Z,
      let once := snd (Input.set_value (PyInt n) self) in
      Input.current_value once = py_str (PyInt n) /\
      Input.n_renders (snd (Input.set_value (PyInt n) once))
      = S (S (Input.n_renders self))).
Proof.
  split.
  - intros s once.
    assert (Input.current_value once = s) as Hcur.
    { subst once. unfold Input.set_value. py_unfold. cbn [py_eq_str].
      destruct (String.eqb_spec s (Input.current_value self)) as [-> | _];
        [reflexivity |].
      match goal with
      | |- context [Input._prepare_render ?st] =>
          destruct (prepare_render_keeps st) as (_ & _ & H & _)
      end. rewrite H. reflexivity. }
    unfold Input.set_value at 1. py_unfold. cbn [py_eq_str].
    rewrite Hcur, String.eqb_refl. reflexivity.
  - intros n once. subst once. unfold Input.set_value. py_unfold.
    cbn [py_eq_str].
    repeat match goal with
    | |- context [Input._prepare_render ?st] =>
        lazymatch goal with
        | _ : Input.n_renders (snd (Input._prepare_render st)) = _ |- _ => fail
        | _ => destruct (prepare_render_keeps st)
                 as (_ & _ & ? & _ & _ & _ & _ & _ & ?)
        end
    end.
    split; [cbn in *; congruence |]. cbn in *. congruence.
Qed.

(** ** [Label]: a sequence of texts *)

Lemma set_text_cases (text : string) (self : Label.t) :
  snd (Label.set_text text self)
  = if Font.renders (Label.font self) text
    then Label.set_surface
           (mkSurface (fst (Font.size (Label.font self) text))
                      (snd (Font.size (Label.font self) text))
                      [DrawText text (Label.font_color self)]) self
    else self.
Proof.
  unfold Label.set_text. py_unfold. unfold Font.render.
  destruct (Font.renders _ _); reflexivity.
Qed.

(** X9.  A [Label] shows the last text its font could rasterise.  After
    construction with [text] and any sequence of [set_text] calls, some of
    which may raise, the cached surface is the render of the last text that
    did not raise (of [text] itself when all raised); the bounding rectangle
    is still the one computed at construction, position and size. *)
Theorem label_shows_last_renderable_text (font : Font.t) (font_color : Color)
        (text : string) (position : Z * Z) (texts : list string)
        (self0 : Label.t) :
  Label.__init__ font font_color text position = Returned self0 ->
  let self := set_texts texts self0 in
  Font.render font (last_renderable font texts text) font_color
  = Returned (Label.surface self) /\
  Label.rect self = Surface.get_rect_topleft (Label.surface self0) position.
Proof.
  unfold Label.__init__. intro Hinit. cbv zeta.
  assert (Font.render font text font_color = Returned (Label.surface self0) /\
          Label.font self0 = font /\ Label.font_color self0 = font_color /\
          Label.rect self0
          = Surface.get_rect_topleft (Label.surface self0) position) as Hstart.
  { destruct (Font.render font text font_color) as [sf |]; [| discriminate].
    inversion Hinit. cbn. auto. }
  clear Hinit. revert Hstart.
  generalize (Surface.get_rect_topleft (Label.surface self0) position).
  intro r0. revert text self0.
  induction texts as [| next texts IH];
    intros text self (Hshown & Hfont & Hcolor & Hrect); [auto |].
  cbn [set_texts last_renderable fold_left].
  apply (IH (if Font.renders font next then next else text)).
  rewrite set_text_cases, Hfont, Hcolor.
  destruct (Font.renders font next) eqn:Hnext; [| auto].
  cbn. unfold Font.render. rewrite Hnext. auto.
Qed.

Lemma label_shows_last_renderable_text_witness :
  exists self0,
    Label.__init__ narrow_font white "Mines: 10" (3, 4) = Returned self0 /\
    let self := set_texts ["Mines: 9"; "Mines: 1000"; "Mines: 8"; "Mines: 10000"]
                          self0 in
    Font.render narrow_font "Mines: 8" white = Returned (Label.surface self) /\
    Label.rect self = Rect.make 3 4 72 16.
Proof.
  eexists. split; [vm_compute; reflexivity |].
  apply (label_shows_last_renderable_text narrow_font white "Mines: 10" (3, 4)
           ["Mines: 9"; "Mines: 1000"; "Mines: 8"; "Mines: 10000"]).
  vm_compute; reflexivity.
Defined.

(** ** [Button.on_mouse_down] *)

Lemma button_mouse_down_cases {Env : Type} (b : Button.t Env) (env : Env)
      (event : Z * (Z * Z)) :
  Button.on_mouse_down (fst event) (snd event) (b, env)
  = (Returned tt,
     (b, match Button.on_click_callback b with
         | Some cb =>
             if left_click_inside (Button.rect b) event then cb env else env
         | None => env
         end)).
Proof.
  unfold Button.on_mouse_down, left_click_inside. py_unfold. cbn [fst snd].
  destruct (fst event =? LEFT_CLICK);
    destruct (Button.on_click_callback b) as [cb |]; cbn [andb];
    try reflexivity.
  destruct (Rect.collidepoint _ _ _); reflexivity.
Qed.

(** X10.  A [Button] calls its callback once for every left press with the
    pointer inside its rectangle (left and top edges included, right and
    bottom edges excluded) and for nothing else.  After any sequence of
    mouse-down events the host state is the callback applied as many times
    as there were such presses, in particular unchanged when no callback is
    registered, and the button itself is unchanged. *)
Theorem button_calls_back_once_per_hit {Env : Type} (b : Button.t Env)
        (events : list (Z * (Z * Z))) (env : Env) :
  button_events events (b, env)
  = (b,
     match Button.on_click_callback b with
     | Some cb =>
         Nat.iter
           (List.length (filter (left_click_inside (Button.rect b)) events))
           cb env
     | None => env
     end).
Proof.
  unfold button_events.
  rewrite <- (rev_involutive events).
  induction (rev events) as [| event rest IH]; cbn [rev].
  - cbn. destruct (Button.on_click_callback b); reflexivity.
  - rewrite fold_left_app, IH. cbn [fold_left].
    rewrite button_mouse_down_cases. cbn [snd].
    destruct (Button.on_click_callback b) as [cb |]; [| reflexivity].
    rewrite filter_app, length_app. cbn [filter].
    destruct (left_click_inside (Button.rect b) event); cbn [List.length].
    + rewrite Nat.add_1_r. reflexivity.
    + rewrite Nat.add_0_r. reflexivity.
Qed.

(** ** [SelectionGroup]: sequences of mouse events *)

(** Every call of [on_mouse_down] on a well-formed group returns; either
    nothing changed, or the selection moved to another row [i], the callback
    ran for it and the two markers were blitted again. *)
Lemma mouse_down_result {Env : Type} (sg : SelectionGroup.t Env) (env : Env)
      (button : Z) (mouse_pos : Z * Z) :
  group_well_formed sg ->
  SelectionGroup.on_mouse_down button mouse_pos (sg, env) = (Returned tt, (sg, env))
  \/
  exists i option old_rect new_rect,
    i <> SelectionGroup._selected sg /\
    nth_error (SelectionGroup.options sg) i = Some option /\
    nth_error (SelectionGroup.button_rects sg) (SelectionGroup._selected sg)
    = Some old_rect /\
    nth_error (SelectionGroup.button_rects sg) i = Some new_rect /\
    SelectionGroup.on_mouse_down button mouse_pos (sg, env)
    = (Returned tt,
       (SelectionGroup.set_surface
          (Surface.blit (SelectionGroup.selected_image sg)
                        (Rect.topleft new_rect)
             (Surface.blit (SelectionGroup.unselected_image sg)
                           (Rect.topleft old_rect)
                           (SelectionGroup.surface sg)))
          (SelectionGroup.set__selected i sg),
        notify sg option env)).
Proof.
  intros [Hbuttons Hoptions Hselected].
  pose proof (map_snd_combine _ _ Hbuttons) as Hrows.
  unfold SelectionGroup.on_mouse_down.
  destruct (negb (button =? LEFT_CLICK)); [left; reflexivity |].
  py_unfold. cbn [fst snd].
  match goal with
  | |- context [SelectionGroup.scan_rows 0 ?rows ?x ?y _] =>
      destruct (first_hit (map snd rows) x y) as [i |] eqn:Hscan
  end.
  - pose proof (first_hit_lt _ _ _ _ Hscan) as Hi. rewrite Hrows in Hi.
    destruct (nth_error (SelectionGroup.options sg) i) as [option |] eqn:Hopt;
      [| apply nth_error_None in Hopt; lia].
    rewrite (scan_rows_hit _ _ _ 0%nat i sg env option Hscan Hopt).
    cbn [Nat.add fst snd SelectionGroup._selected SelectionGroup.set__selected].
    destruct (Nat.eqb_spec i (SelectionGroup._selected sg)) as [-> | Hne].
    + left. cbn [negb]. now rewrite set_selected_same.
    + right. cbn [negb].
      destruct (nth_error (SelectionGroup.button_rects sg)
                          (SelectionGroup._selected sg))
        as [old_rect |] eqn:Hold; [| apply nth_error_None in Hold; lia].
      destruct (nth_error (SelectionGroup.button_rects sg) i)
        as [new_rect |] eqn:Hnew; [| apply nth_error_None in Hnew; lia].
      exists i, option, old_rect, new_rect.
      split; [exact Hne |].
      do 3 (split; [first [reflexivity | assumption] |]).
      unfold index.
      cbn [SelectionGroup.button_rects SelectionGroup.set__selected
           SelectionGroup.set_surface SelectionGroup.on_self fst snd].
      rewrite Hold. cbn. rewrite Hnew. reflexivity.
  - left. rewrite (scan_rows_miss _ _ _ 0%nat (sg, env) Hscan).
    cbn [fst snd]. rewrite Nat.eqb_refl. reflexivity.
Qed.

(** [on_mouse_down] reassigns [_selected] and [surface] and nothing else. *)
Lemma mouse_down_keeps_layout {Env : Type} (sg : SelectionGroup.t Env)
      (env : Env) (button : Z) (mouse_pos : Z * Z) :
  group_well_formed sg ->
  let sg' := fst (snd (SelectionGroup.on_mouse_down button mouse_pos (sg, env))) in
  SelectionGroup.options sg' = SelectionGroup.options sg /\
  SelectionGroup.n_options sg' = SelectionGroup.n_options sg /\
  SelectionGroup.button_rects sg' = SelectionGroup.button_rects sg /\
  SelectionGroup.item_rects sg' = SelectionGroup.item_rects sg /\
  SelectionGroup.unselected_image sg' = SelectionGroup.unselected_image sg /\
  SelectionGroup.selected_image sg' = SelectionGroup.selected_image sg /\
  SelectionGroup.callback sg' = SelectionGroup.callback sg.
Proof.
  intro Hwf. cbv zeta.
  destruct (mouse_down_result sg env button mouse_pos Hwf)
    as [-> | (i & option & old_rect & new_rect & _ & _ & _ & _ & ->)];
    cbn; auto 10.
Qed.

(** What holds of a fresh group and is kept by every mouse event holds
    after any sequence of mouse events. *)
Lemma mouse_events_invariant {Env : Type}
      (holds : SelectionGroup.World Env -> Prop) :
  (forall w button mouse_pos,
      group_well_formed (fst w) -> holds w ->
      holds (snd (SelectionGroup.on_mouse_down button mouse_pos w))) ->
  forall events w,
    group_well_formed (fst w) -> holds w ->
    group_well_formed (fst (mouse_events events w)) /\
    holds (mouse_events events w).
Proof.
  intro Hstep. induction events as [| [button mouse_pos] events IH];
    intros w Hwf Hw; [auto |].
  cbn. apply IH.
  - destruct w as [sg env]. now apply mouse_down_preserves_well_formed.
  - now apply Hstep.
Qed.

(** X11.  The [selected] property of a [SelectionGroup] never raises.  After
    construction and any sequence of mouse-down events, whatever their button
    and position, [selected] returns a label, that label is one of the
    options given to the constructor, and the list of options and their
    count are the ones set at construction. *)
Theorem selected_is_always_an_option {Env : Type} (font : Font.t)
        (font_color : Color) (unselected_image selected_image : Surface)
        (title : string) (options : list string)
        (on_change_callback : option (string -> nat -> Env -> Env))
        (position : Z * Z) (sg0 : SelectionGroup.t Env) (env0 : Env)
        (events : list (Z * (Z * Z))) :
  SelectionGroup.__init__ Env font font_color unselected_image selected_image
                          title options on_change_callback position
  = Returned sg0 ->
  let sg := fst (mouse_events events (sg0, env0)) in
  SelectionGroup.options sg = options /\
  exists option,
    SelectionGroup.selected _ sg = Returned option /\ In option options.
Proof.
  intro Hinit. cbv zeta.
  destruct (init_returned _ _ _ _ _ _ _ _ _ Hinit) as (_ & Hoptions & Hwf & _).
  destruct (mouse_events_invariant
              (fun w : SelectionGroup.World Env =>
                 SelectionGroup.options (fst w) = options))
    with (events := events) (w := (sg0, env0)) as [Hwf' Hoptions'];
    [| exact Hwf | exact Hoptions |].
  - intros [sg env] button mouse_pos Hsg Hsame. cbn [fst] in *.
    destruct (mouse_down_keeps_layout sg env button mouse_pos Hsg) as (H & _).
    cbv zeta in H. now rewrite H.
  - split; [exact Hoptions' |].
    destruct Hwf' as [_ Hper Hsel]. rewrite <- Hper in Hsel.
    unfold SelectionGroup.selected, index.
    destruct (nth_error _ _) as [option |] eqn:Hnth;
      [| apply nth_error_None in Hnth; lia].
    exists option. split; [reflexivity |].
    rewrite <- Hoptions'. exact (nth_error_In _ _ Hnth).
Qed.

Lemma selected_is_always_an_option_witness :
  exists sg0,
    difficulty_group = Returned sg0 /\
    let sg :=
      fst (mouse_events [(1, (110, 130)); (3, (110, 100)); (1, (105, 106));
                         (1, (0, 0))] (sg0, [])) in
    SelectionGroup.options sg = ["Easy"; "Medium"; "Hard"] /\
    exists option,
      SelectionGroup.selected _ sg = Returned option /\
      In option ["Easy"; "Medium"; "Hard"].
Proof.
  eexists. split; [vm_compute; reflexivity |].
  refine (selected_is_always_an_option mono_font white radio_off radio_on
            "Difficulty" ["Easy"; "Medium"; "Hard"] (Some logging_callback)
            (100, 50) _ [] _ _).
  vm_compute; reflexivity.
Defined.

(** X12.  The host is told of every change of selection.  Build a group
    whose callback appends its argument to a log and send it any sequence of
    mouse-down events: while the log is empty the selection is still the
    first option, and otherwise the label last logged is the one [selected]
    returns. *)
Theorem log_tracks_selection (font : Font.t) (font_color : Color)
        (unselected_image selected_image : Surface) (title : string)
        (options : list string) (position : Z * Z)
        (sg0 : SelectionGroup.t (list (string * nat)))
        (events : list (Z * (Z * Z))) :
  SelectionGroup.__init__ _ font font_color unselected_image selected_image
                          title options (Some logging_callback) position
  = Returned sg0 ->
  let w := mouse_events events (sg0, []) in
  match rev (snd w) with
  | [] => SelectionGroup._selected (fst w) = 0%nat
  | (option, _) :: _ => SelectionGroup.selected _ (fst w) = Returned option
  end.
Proof.
  intro Hinit. cbv zeta.
  destruct (init_returned _ _ _ _ _ _ _ _ _ Hinit) as (Hfirst & _ & Hwf & _).
  assert (SelectionGroup.callback sg0 = Some logging_callback) as Hcallback.
  { revert Hinit. unfold SelectionGroup.__init__.
    destruct (negb _); [discriminate |].
    destruct (Font.render _ _ _); [| discriminate].
    destruct (render_all _ _ _); [| discriminate]. cbv zeta.
    destruct (py_max _); [| discriminate].
    destruct (SelectionGroup.layout_rows _ _ _ _) as [[bs os] is_].
    destruct (index bs 0); [| discriminate].
    intro H. inversion H. reflexivity. }
  destruct (mouse_events_invariant
              (fun w : SelectionGroup.World (list (string * nat)) =>
                 SelectionGroup.callback (fst w) = Some logging_callback /\
                 match rev (snd w) with
                 | [] => SelectionGroup._selected (fst w) = 0%nat
                 | (option, _) :: _ =>
                     SelectionGroup.selected _ (fst w) = Returned option
                 end))
    with (events := events) (w := (sg0, @nil (string * nat)))
    as [_ [_ Hlog]]; [| exact Hwf | split; [exact Hcallback | exact Hfirst] |].
  - intros [sg log] button mouse_pos Hsg [Hcb Hlog]. cbn [fst snd] in *.
    destruct (mouse_down_result sg log button mouse_pos Hsg)
      as [-> | (i & option & old_rect & new_rect & _ & Hopt & _ & _ & ->)];
      cbn [fst snd]; [auto |].
    split; [exact Hcb |].
    unfold notify. rewrite Hcb. unfold logging_callback.
    rewrite rev_unit. unfold SelectionGroup.selected, index. cbn.
    rewrite Hopt. reflexivity.
  - exact Hlog.
Qed.

Lemma log_tracks_selection_witness :
  exists sg0,
    difficulty_group = Returned sg0 /\
    let w :=
      mouse_events [(1, (110, 130)); (3, (110, 100)); (1, (105, 106));
                    (1, (0, 0))] (sg0, []) in
    snd w = [("Hard", 0%nat); ("Medium", 2%nat)] /\
    match rev (snd w) with
    | [] => SelectionGroup._selected (fst w) = 0%nat
    | (option, _) :: _ => SelectionGroup.selected _ (fst w) = Returned option
    end.
Proof.
  eexists. split; [vm_compute; reflexivity |]. cbv zeta.
  split; [vm_compute; reflexivity |].
  match goal with
  | |- context [mouse_events ?events (?sg, _)] =>
      refine (log_tracks_selection mono_font white radio_off radio_on
                "Difficulty" ["Easy"; "Medium"; "Hard"] (100, 50) sg events _)
  end.
  vm_compute; reflexivity.
Defined.

(** ** [SelectionGroup]: the layout of the rows *)

(** One step of the layout loop: [y] advances by one and a half item
    heights, which after truncation is at least one item height. *)
Lemma trunc_step (q : Q) (h : Z) :
  0 <= Qnum q -> 0 <= h ->
  trunc q + h <= trunc (q + 1.5 * inject_Z h)%Q /\
  0 <= Qnum (q + 1.5 * inject_Z h)%Q.
Proof.
  intros Hq Hh. destruct q as [n d]. unfold trunc. cbn [Qnum Qden] in *.
  unfold Qplus, Qmult, inject_Z. cbn [Qnum Qden].
  rewrite !Z.quot_div_nonneg by lia.
  split; [| nia].
  rewrite Pos2Z.inj_mul.
  set (D := Z.pos d) in *. assert (0 < D) by (subst D; lia).
  apply Z.div_le_lower_bound; [lia |].
  pose proof (Z.mul_div_le n D ltac:(lia)).
  nia.
Qed.

Lemma first_row_nonneg (b h : Z) :
  0 <= b -> 0 <= h -> 0 <= Qnum (inject_Z b + 0.5 * inject_Z h)%Q.
Proof.
  intros Hb Hh. unfold Qplus, Qmult, inject_Z. cbn [Qnum Qden]. nia.
Qed.

Lemma layout_rows_stacked (unselected_image : Surface) (item_height : Z)
      (rows : list (Surface * Q)) :
  0 <= item_height ->
  forall y button_rects option_rects item_rects,
    0 <= Qnum y ->
    SelectionGroup.layout_rows unselected_image item_height y rows
    = (button_rects, option_rects, item_rects) ->
    Forall (fun r => trunc y <= Rect.y r) button_rects /\
    Forall (fun r => trunc y <= Rect.y r) item_rects /\
    Forall (fun r => Rect.h r = item_height) item_rects /\
    stacked item_height button_rects /\
    stacked item_height item_rects.
Proof.
  intro Hheight.
  induction rows as [| [option_image item_width] rows IH];
    intros y bs os is_ Hy H; cbn in H.
  - inversion H. cbn. auto.
  - destruct (SelectionGroup.layout_rows _ _ _ rows) as [[bs' os'] is'] eqn:Hrest.
    inversion H. subst. clear H.
    destruct (trunc_step y item_height Hy Hheight) as [Hstep Hy'].
    destruct (IH _ _ _ _ Hy' Hrest) as (Hbs & His & Hh & Sbs & Sis).
    cbn [stacked Rect.y Surface.get_rect_y].
    repeat split; try assumption.
    + constructor; [cbn; lia |].
      eapply Forall_impl; [| exact Hbs]. cbn. intros r Hr. lia.
    + constructor; [cbn; lia |].
      eapply Forall_impl; [| exact His]. cbn. intros r Hr. lia.
    + constructor; [reflexivity | exact Hh].
    + eapply Forall_impl; [| exact Hbs]. cbn. intros r Hr. lia.
    + eapply Forall_impl; [| exact His]. cbn. intros r Hr. lia.
Qed.

Lemma stacked_nth (gap : Z) (rects : list Rect.t) :
  stacked gap rects ->
  forall i k ri rk,
    (i < k)%nat ->
    nth_error rects i = Some ri -> nth_error rects k = Some rk ->
    Rect.y ri + gap <= Rect.y rk.
Proof.
  induction rects as [| r rects IH]; intros Hstacked i k ri rk Hik Hi Hk.
  - destruct i; discriminate.
  - destruct Hstacked as [Hbelow Hrest].
    destruct k as [| k]; [lia |]. cbn in Hk.
    destruct i as [| i]; cbn in Hi.
    + inversion Hi. subst r.
      rewrite Forall_forall in Hbelow. apply Hbelow.
      exact (nth_error_In _ _ Hk).
    + apply (IH Hrest i k); [lia | assumption | assumption].
Qed.

(** Rectangles stacked with a positive gap have distinct top left corners. *)
Lemma stacked_corners_differ (gap : Z) (rects : list Rect.t) :
  0 < gap -> stacked gap rects ->
  forall i k ri rk,
    nth_error rects i = Some ri -> nth_error rects k = Some rk ->
    Rect.topleft ri = Rect.topleft rk -> i = k.
Proof.
  intros Hgap Hstacked i k ri rk Hi Hk Hcorner.
  assert (Rect.y ri = Rect.y rk) as Hy
      by (unfold Rect.topleft in Hcorner; now inversion Hcorner).
  destruct (Nat.lt_trichotomy i k) as [Hlt | [Heq | Hgt]]; [| exact Heq |].
  - pose proof (stacked_nth gap rects Hstacked i k ri rk Hlt Hi Hk). lia.
  - pose proof (stacked_nth gap rects Hstacked k i rk ri Hgt Hk Hi). lia.
Qed.

(** What [__init__] guarantees about the rectangles of the rows, for a font
    whose title has a non-negative height and rows of non-negative height. *)
Lemma init_layout {Env : Type} (font : Font.t) (font_color : Color)
      (unselected_image selected_image : Surface) (title : string)
      (options : list string)
      (on_change_callback : option (string -> nat -> Env -> Env))
      (position : Z * Z) (sg : SelectionGroup.t Env) :
  SelectionGroup.__init__ Env font font_color unselected_image selected_image
                          title options on_change_callback position
  = Returned sg ->
  0 <= snd (Font.size font title) ->
  let item_height :=
    Z.max (Surface.get_height unselected_image) (Font.get_height font) in
  0 <= item_height ->
  SelectionGroup.unselected_image sg = unselected_image /\
  SelectionGroup.selected_image sg = selected_image /\
  Forall (fun r => Rect.h r = item_height) (SelectionGroup.item_rects sg) /\
  stacked item_height (SelectionGroup.button_rects sg) /\
  stacked item_height (SelectionGroup.item_rects sg).
Proof.
  intros Hinit Htitle item_height Hheight. revert Hinit.
  unfold SelectionGroup.__init__.
  destruct (negb _); [discriminate |].
  unfold Font.render at 1.
  destruct (Font.renders font title); [| discriminate].
  destruct (render_all font font_color options) as [option_images |];
    [| discriminate].
  cbv zeta.
  destruct (py_max _) as [widest |]; [| discriminate].
  destruct (SelectionGroup.layout_rows _ _ _ _) as [[bs os] is_] eqn:Hlayout.
  apply layout_rows_stacked in Hlayout;
    [| exact Hheight | apply first_row_nonneg; [cbn; lia | exact Hheight]].
  destruct Hlayout as (_ & _ & Hh & Sbs & Sis).
  destruct (index bs 0); [| discriminate].
  intro H. inversion H. cbn. auto.
Qed.

(** X13.  The rows of a [SelectionGroup] never overlap.  For a group built
    with a title of non-negative height and rows of non-negative height,
    after construction and after any sequence of mouse-down events no point
    lies in the item rectangles of two different rows; so the first row that
    holds a click is the only one. *)
Theorem rows_do_not_overlap {Env : Type} (font : Font.t) (font_color : Color)
        (unselected_image selected_image : Surface) (title : string)
        (options : list string)
        (on_change_callback : option (string -> nat -> Env -> Env))
        (position : Z * Z) (sg0 : SelectionGroup.t Env) (env0 : Env)
        (events : list (Z * (Z * Z))) :
  SelectionGroup.__init__ Env font font_color unselected_image selected_image
                          title options on_change_callback position
  = Returned sg0 ->
  0 <= snd (Font.size font title) ->
  0 <= Z.max (Surface.get_height unselected_image) (Font.get_height font) ->
  let sg := fst (mouse_events events (sg0, env0)) in
  forall i k ri rk x y,
    nth_error (SelectionGroup.item_rects sg) i = Some ri ->
    nth_error (SelectionGroup.item_rects sg) k = Some rk ->
    Rect.collidepoint ri x y = true ->
    Rect.collidepoint rk x y = true ->
    i = k.
Proof.
  intros Hinit Htitle Hheight. cbv zeta.
  destruct (init_returned _ _ _ _ _ _ _ _ _ Hinit) as (_ & _ & Hwf & _).
  destruct (init_layout _ _ _ _ _ _ _ _ _ Hinit Htitle Hheight)
    as (_ & _ & Hh & _ & Hstacked).
  destruct (mouse_events_invariant
              (fun w : SelectionGroup.World Env =>
                 SelectionGroup.item_rects (fst w)
                 = SelectionGroup.item_rects sg0))
    with (events := events) (w := (sg0, env0)) as [_ Hsame];
    [| exact Hwf | reflexivity |].
  - intros [sg env] button mouse_pos Hsg Hsame. cbn [fst] in *.
    destruct (mouse_down_keeps_layout sg env button mouse_pos Hsg)
      as (_ & _ & _ & H & _).
    cbv zeta in H. now rewrite H.
  - rewrite Hsame. intros i k ri rk x y Hi Hk Hci Hck.
    rewrite Forall_forall in Hh.
    pose proof (Hh ri (nth_error_In _ _ Hi)) as Hhi.
    pose proof (Hh rk (nth_error_In _ _ Hk)) as Hhk.
    unfold Rect.collidepoint in Hci, Hck.
    apply andb_true_iff in Hci, Hck.
    destruct Hci as [Hci Hbi], Hck as [Hck Hbk].
    apply andb_true_iff in Hci, Hck.
    destruct Hci as [_ Hti], Hck as [_ Htk].
    apply Z.leb_le in Hti, Htk. apply Z.ltb_lt in Hbi, Hbk.
    destruct (Nat.lt_trichotomy i k) as [Hlt | [Heq | Hgt]]; [| exact Heq |].
    + pose proof (stacked_nth _ _ Hstacked i k ri rk Hlt Hi Hk). lia.
    + pose proof (stacked_nth _ _ Hstacked k i rk ri Hgt Hk Hi). lia.
Qed.

Lemma rows_do_not_overlap_witness :
  exists sg0,
    difficulty_group = Returned sg0 /\
    let sg := fst (mouse_events [(1, (110, 130)); (1, (105, 106))] (sg0, [])) in
    forall i k ri rk x y,
      nth_error (SelectionGroup.item_rects sg) i = Some ri ->
      nth_error (SelectionGroup.item_rects sg) k = Some rk ->
      Rect.collidepoint ri x y = true ->
      Rect.collidepoint rk x y = true ->
      i = k.
Proof.
  eexists. split; [vm_compute; reflexivity |].
  match goal with
  | |- context [mouse_events ?events (?sg, _)] =>
      refine (rows_do_not_overlap mono_font white radio_off radio_on
                "Difficulty" ["Easy"; "Medium"; "Hard"] (Some logging_callback)
                (100, 50) sg [] events _ _ _)
  end.
  - vm_compute; reflexivity.
  - vm_compute; discriminate.
  - vm_compute; discriminate.
Defined.

(** ** [SelectionGroup]: the markers on the surface *)

Lemma pos_eqb_eq (p q : Z * Z) : pos_eqb p q = true <-> p = q.
Proof.
  destruct p as [px py], q as [qx qy]. unfold pos_eqb. cbn.
  rewrite andb_true_iff, !Z.eqb_eq. split.
  - intros [-> ->]. reflexivity.
  - intro H. inversion H. auto.
Qed.

Lemma shown_at_blit (pos : Z * Z) (content : list Draw) (source : Surface)
      (dest : Z * Z) :
  shown_at pos (content ++ [DrawBlit source dest])
  = if pos_eqb dest pos then Some source else shown_at pos content.
Proof. unfold shown_at. rewrite fold_left_app. reflexivity. Qed.

(** The markers a loop blits: the image shows at the corner of each of the
    rectangles. *)
Lemma shown_at_blit_each (pos : Z * Z) (image : Surface) (rects : list Rect.t) :
  forall content,
    shown_at pos
      (content ++ map (fun r => DrawBlit image (Rect.topleft r)) rects)
    = if existsb (fun r => pos_eqb (Rect.topleft r) pos) rects
      then Some image
      else shown_at pos content.
Proof.
  induction rects as [| r rects IH] using rev_ind; intro content.
  - cbn. now rewrite app_nil_r.
  - rewrite map_app, app_assoc. cbn [map]. rewrite shown_at_blit, IH.
    rewrite existsb_app. cbn [existsb]. rewrite orb_false_r.
    destruct (pos_eqb (Rect.topleft r) pos);
      [now rewrite orb_true_r | now rewrite orb_false_r].
Qed.

(** A fresh group with distinct marker corners shows the selected image on
    the first row and the unselected image on the others. *)
Lemma first_marked_matches {Env : Type} (sg : SelectionGroup.t Env) :
  first_marked sg ->
  SelectionGroup._selected sg = 0%nat ->
  (forall i k ri rk,
      nth_error (SelectionGroup.button_rects sg) i = Some ri ->
      nth_error (SelectionGroup.button_rects sg) k = Some rk ->
      Rect.topleft ri = Rect.topleft rk -> i = k) ->
  markers_match_selection sg.
Proof.
  intros (before & first & rest & Hrects & Hcontent) Hselected Hdistinct
         k button_rect Hk.
  rewrite Hcontent, Hselected.
  change (before
          ++ DrawBlit (SelectionGroup.selected_image sg) (Rect.topleft first)
          :: map (fun r => DrawBlit (SelectionGroup.unselected_image sg)
                                    (Rect.topleft r)) rest)
    with (before
          ++ [DrawBlit (SelectionGroup.selected_image sg) (Rect.topleft first)]
          ++ map (fun r => DrawBlit (SelectionGroup.unselected_image sg)
                                    (Rect.topleft r)) rest).
  rewrite app_assoc, shown_at_blit_each, shown_at_blit.
  rewrite Hrects in Hk, Hdistinct.
  destruct k as [| k]; cbn in Hk.
  - inversion Hk. subst button_rect. cbn [Nat.eqb].
    destruct (existsb _ rest) eqn:Hother.
    + exfalso. apply existsb_exists in Hother.
      destruct Hother as (r & Hin & Hsame). apply pos_eqb_eq in Hsame.
      apply In_nth_error in Hin. destruct Hin as [m Hm].
      specialize (Hdistinct (S m) 0%nat r first Hm eq_refl Hsame).
      discriminate.
    + replace (pos_eqb (Rect.topleft first) (Rect.topleft first)) with true
        by (symmetry; now apply pos_eqb_eq).
      reflexivity.
  - cbn [Nat.eqb].
    replace (existsb _ rest) with true; [reflexivity |].
    symmetry. apply existsb_exists. exists button_rect.
    split; [exact (nth_error_In _ _ Hk) | now apply pos_eqb_eq].
Qed.

(** X14.  The markers on the surface follow the selection.  For a group
    built with a title of non-negative height and rows of positive height,
    after construction and after any sequence of mouse-down events, the last
    image blitted at the marker position of the selected row is the selected
    image, and the last image blitted at the marker position of every other
    row is the unselected image: redrawing only the two markers that changed
    is enough. *)
Theorem markers_follow_selection {Env : Type} (font : Font.t)
        (font_color : Color) (unselected_image selected_image : Surface)
        (title : string) (options : list string)
        (on_change_callback : option (string -> nat -> Env -> Env))
        (position : Z * Z) (sg0 : SelectionGroup.t Env) (env0 : Env)
        (events : list (Z * (Z * Z))) :
  SelectionGroup.__init__ Env font font_color unselected_image selected_image
                          title options on_change_callback position
  = Returned sg0 ->
  0 <= snd (Font.size font title) ->
  0 < Z.max (Surface.get_height unselected_image) (Font.get_height font) ->
  markers_match_selection (fst (mouse_events events (sg0, env0))).
Proof.
  intros Hinit Htitle Hheight.
  destruct (init_returned _ _ _ _ _ _ _ _ _ Hinit)
    as (Hselected & _ & Hwf & Hmarked).
  destruct (init_layout _ _ _ _ _ _ _ _ _ Hinit Htitle) as (_ & _ & _ & Hstacked & _);
    [lia |].
  pose proof (stacked_corners_differ _ _ Hheight Hstacked) as Hdistinct.
  destruct (mouse_events_invariant
              (fun w : SelectionGroup.World Env =>
                 SelectionGroup.button_rects (fst w)
                 = SelectionGroup.button_rects sg0 /\
                 markers_match_selection (fst w)))
    with (events := events) (w := (sg0, env0)) as [_ [_ Hmatch]];
    [| exact Hwf
     | split; [reflexivity | now apply first_marked_matches]
     | exact Hmatch].
  intros [sg env] button mouse_pos Hsg [Hrects Hmatch]. cbn [fst] in *.
  destruct (mouse_down_result sg env button mouse_pos Hsg)
    as [-> | (i & option & old_rect & new_rect & Hne & _ & Hold & Hnew & ->)];
    cbn [fst snd]; [auto |].
  split; [exact Hrects |].
  intros k button_rect Hk. cbn in Hk |- *.
  rewrite !blit_content, !shown_at_blit.
  rewrite <- Hrects in Hdistinct.
  destruct (pos_eqb (Rect.topleft new_rect) (Rect.topleft button_rect))
    eqn:Hat_new.
  - apply pos_eqb_eq in Hat_new.
    rewrite (Hdistinct _ _ _ _ Hk Hnew (eq_sym Hat_new)), Nat.eqb_refl.
    reflexivity.
  - assert (k <> i) as Hki.
    { intros ->. rewrite Hk in Hnew. inversion Hnew. subst new_rect.
      assert (pos_eqb (Rect.topleft button_rect) (Rect.topleft button_rect)
              = true) as Hrefl by now apply pos_eqb_eq.
      congruence. }
    apply Nat.eqb_neq in Hki. rewrite Hki.
    destruct (pos_eqb (Rect.topleft old_rect) (Rect.topleft button_rect))
      eqn:Hat_old; [reflexivity |].
    rewrite (Hmatch k button_rect Hk).
    assert (k <> SelectionGroup._selected sg) as Hkj.
    { intros ->. rewrite Hk in Hold. inversion Hold. subst old_rect.
      assert (pos_eqb (Rect.topleft button_rect) (Rect.topleft button_rect)
              = true) as Hrefl by now apply pos_eqb_eq.
      congruence. }
    apply Nat.eqb_neq in Hkj. rewrite Hkj. reflexivity.
Qed.

Lemma markers_follow_selection_witness :
  exists sg0,
    difficulty_group = Returned sg0 /\
    let sg := fst (mouse_events [(1, (110, 130)); (1, (105, 106))] (sg0, [])) in
    SelectionGroup._selected sg = 1%nat /\
    markers_match_selection sg.
Proof.
  eexists. split; [vm_compute; reflexivity |]. cbv zeta.
  split; [vm_compute; reflexivity |].
  match goal with
  | |- context [mouse_events ?events (?sg, _)] =>
      refine (markers_follow_selection mono_font white radio_off radio_on
                "Difficulty" ["Easy"; "Medium"; "Hard"] (Some logging_callback)
                (100, 50) sg [] events _ _ _)
  end.
  - vm_compute; reflexivity.
  - vm_compute; discriminate.
  - vm_compute; reflexivity.
Defined.

(** ** [Input]: the text on the surface *)

Lemma prepare_render_displays (self : Input.t) :
  (forall text, Font.renders (Input.font self) text = true) ->
  let self' := snd (Input._prepare_render self) in
  Input.font self' = Input.font self /\
  displayed_text self' = Some (composed_text self) /\
  composed_text self' = composed_text self.
Proof.
  intro Hfont. unfold Input._prepare_render. py_unfold. unfold Font.render.
  cbn. rewrite Hfont. unfold displayed_text, composed_text. input_unfold.
  destruct (Input.active_input self); destruct (Input.rect self);
    destruct (Input.in_input self); cbn; auto.
Qed.

(** X15.  With a font that can rasterise every string and an enter callback
    that returns whenever it is called, the surface of an [Input] is never
    stale.  After construction and after any sequence of [set_value], click
    and key calls, the text on the cached surface is the title, the
    delimiter and the pending value, followed by the cursor "_" exactly when
    the widget is in edit mode. *)
Theorem display_shows_pending_value
        (key_name : Z -> string) (font : Font.t) (font_color : Color)
        (title : string) (value : PyValue) (delimiter : string)
        (frame_color : option Color) (active_input : bool)
        (width max_value_length : option Z)
        (allowed_symbols : option (list string))
        (on_enter_callback : option (string -> Outcome bool)) (position : Z * Z)
        (ops : list Input.Op) (self0 : Input.t) :
  (forall text, Font.renders font text = true) ->
  never_raises on_enter_callback ->
  Input.__init__ font font_color title value delimiter frame_color active_input
                 width max_value_length allowed_symbols on_enter_callback
                 position = Returned self0 ->
  let self := Input.run key_name ops self0 in
  displayed_text self = Some (composed_text self).
Proof.
  intros Hfont Hreturns Hinit. cbv zeta.
  assert (display_current font on_enter_callback self0) as Hstart.
  { revert Hinit. unfold Input.__init__.
    match goal with
    | |- context [Input._prepare_render ?s] =>
        destruct (prepare_render_displays s Hfont) as (Hf & Hshown & Htext);
        destruct (prepare_render_keeps s) as (_ & _ & _ & _ & _ & _ & _ & Hcb & _);
        destruct (Input._prepare_render s) as [[u | e] self1]
    end; [| discriminate].
    cbn [snd] in Hf, Hshown, Htext, Hcb.
    destruct (Input.surface self1) as [sf |] eqn:Hsf; [| discriminate].
    intro H. inversion H. subst self0.
    split; [exact Hf |]. split; [exact Hcb |].
    change (displayed_text self1 = Some (composed_text self1)).
    rewrite Hshown, Htext. reflexivity. }
  clear Hinit. revert self0 Hstart.
  induction ops as [| op ops IH]; intros self (Hf & Hcb & Hshown);
    [exact Hshown |].
  cbn. apply IH.
  destruct (perform_shape key_name op self)
    as [-> | [(b & v & c & ->) | [Hraises _]]].
  - split; [exact Hf | split; [exact Hcb | exact Hshown]].
  - match goal with
    | |- context [Input._prepare_render ?s] =>
        destruct (prepare_render_displays s) as (Hf' & Hshown' & Htext');
        [cbn; rewrite Hf; exact Hfont |];
        destruct (prepare_render_keeps s)
          as (_ & _ & _ & _ & _ & _ & _ & Hcb' & _)
    end.
    cbv zeta in *. unfold display_current.
    rewrite Hf', Hshown', Htext', Hcb'. cbn. auto.
  - exfalso. apply Hraises. apply never_raises_enter.
    rewrite Hcb. exact Hreturns.
Qed.

Lemma display_shows_pending_value_witness :
  exists self0,
    limited_input = Returned self0 /\
    never_raises (Some accept_two) /\
    let self :=
      Input.run pygame_key_name
        [click_on_value; Input.KeyPress K_BACKSPACE; Input.KeyPress K_5;
         Input.KeyPress K_RETURN; click_on_value] self0 in
    composed_text self = "MINES  15_" /\
    displayed_text self = Some (composed_text self).
Proof.
  eexists. split; [vm_compute; reflexivity |].
  assert (never_raises (Some accept_two)) as Hreturns
      by (intro pending; eexists; reflexivity).
  split; [exact Hreturns |]. cbv zeta.
  split; [vm_compute; reflexivity |].
  refine (display_shows_pending_value pygame_key_name mono_font white "MINES"
            (PyStr "10") "  " None true None (Some 3) (Some digits)
            (Some accept_two) (20, 300) _ _ _ Hreturns _);
    [intro text; reflexivity |].
  vm_compute; reflexivity.
Defined.

(** ** [Input.__init__] *)



(** ** [SelectionGroup.on_mouse_down], repeated *)




